(** * The timers plugin: registry operations and tick engine

    A shallow embedding of [src/index.js] and [src/reducer.js].  The plugin
    object is a record of what its methods read and write (the redux store
    slice, the notification sink, the logger, the clock); every method is a
    computation over that record which either returns or throws. *)

From stdpp Require Import gmap strings list fin_maps.
From Stdlib Require Import ZArith.

Local Open Scope Z_scope.

(** ** Numbers

    The plugin computes with millisecond counts.  They are integers
    ([Date#getTime] returns one, and sums and differences of integers are
    exact in double precision below 2^53), so a number is an integer, or
    [NaN], which arithmetic on a missing field produces. *)

Inductive num : Type :=
| Num (z : Z)
| NaN.

#[global] Instance num_eq_dec : EqDecision num.
Proof. solve_decision. Defined.

Definition num_add (a b : num) : num :=
  match a, b with
  | Num x, Num y => Num (x + y)
  | _, _ => NaN
  end.

Definition num_sub (a b : num) : num :=
  match a, b with
  | Num x, Num y => Num (x - y)
  | _, _ => NaN
  end.

(** [a > b] and [a < b]: every comparison with [NaN] is false. *)
Definition num_gt (a b : num) : bool :=
  match a, b with
  | Num x, Num y => bool_decide (x > y)
  | _, _ => false
  end.

Definition num_lt (a b : num) : bool :=
  match a, b with
  | Num x, Num y => bool_decide (x < y)
  | _, _ => false
  end.

(** The integers a double holds exactly, up to which sums and differences
    of integers come out as in [Z].  Beyond them the code rounds and the
    operations above do not; statements about sums carry this bound. *)
Definition safe_integer (z : Z) : Prop := - 2 ^ 53 <= z <= 2 ^ 53.

(** Small enough that any sum or difference of three such integers is
    still one a double holds exactly. *)
Definition small_integer (z : Z) : Prop := - 2 ^ 51 <= z <= 2 ^ 51.

(** Reading a numeric field that may be absent: [undefined] converts to
    [NaN]. *)
Definition to_number (o : option num) : num :=
  match o with
  | Some n => n
  | None => NaN
  end.

(** ** The timer record

    The object sketched in the comment at the top of [index.js].  [timestamp]
    and [value] are optional: the literal that [_createTimer] builds has
    neither. *)

Record timer : Type := Timer {
  name : string;
  type : string;
  running : bool;
  elapsed : bool;
  timestamp : option Z;
  value : option num;
  duration : num
}.

#[global] Instance timer_eq_dec : EqDecision timer.
Proof. solve_decision. Defined.

(** ** Notifications, log lines, errors, store actions *)

Inductive event : Type :=
| timerCreated (t : timer)
| timerDeleted (timerName : string)
| timerReset (t : timer)
| timerPaused (t : timer)
| timerResumed (t : timer)
| timerElapsed (t : timer).

#[global] Instance event_eq_dec : EqDecision event.
Proof. solve_decision. Defined.

Inductive level : Type := info | warn | debug.

(** One constructor per template string passed to the logger. *)
Inductive message : Type :=
| unrecognized_type (timerName ty : string)
| juration_parsed (text : string) (parsed : num)
| creating (timerName ty : string) (d : num)
| deleting (timerName : string)
| resetting (timerName : string)
| already_paused (timerName : string)
| pausing (timerName : string)
| already_running (timerName : string)
| resuming (timerName : string).

(** One constructor per [throw] site, and [TypeError] for the two places
    where the engine itself throws: reading a property of [undefined] and
    calling something that is not a function. *)
Inductive error : Type :=
| not_found (timerName : string)
| already_exists (timerName : string)
| invalid_duration_type (typeof : string)
| nonexistent_type (timerName ty : string)
| juration_error (text : string)
| TypeError (what : string).

Inductive action : Type :=
| setTimerData (key : string) (payload : timer)
| deleteTimer_action (key : string).

(** Modelled from the spec: [RH.keyedSetter] of [@towercg/server], which
    [reducer.js] instantiates; the store applies a setter action by binding
    the key to the payload and a delete action by removing the key. *)
Definition pluginReducer (s : gmap string timer) (a : action) : gmap string timer :=
  match a with
  | setTimerData key payload => <[key := payload]> s
  | deleteTimer_action key => delete key s
  end.

(** ** The plugin object *)

(** [state] is the store slice behind [this.state]; [timers] is the property
    [this.timers], which [_createTimer] reads and which nothing in the class
    defines ([None] when it is [undefined]); [emitted] and [logged] collect
    the calls to [this.emit] and [this.logger], oldest first; [clock] counts
    the calls to [new Date().getTime()] made so far. *)
Record plugin : Type := Plugin {
  state : gmap string timer;
  timers : option (gmap string timer);
  emitted : list event;
  logged : list (level * message);
  clock : nat
}.

Inductive outcome (A : Type) : Type :=
| Returned (a : A)
| Thrown (e : error).
Arguments Returned {A} a.
Arguments Thrown {A} e.

(** A method body: it runs on the plugin object and leaves it changed,
    whether it returns or throws. *)
Definition M (A : Type) : Type := plugin -> outcome A * plugin.

Definition ret {A} (a : A) : M A := fun w => (Returned a, w).

Definition throw {A} (e : error) : M A := fun w => (Thrown e, w).

Definition bind {A B} (c : M A) (k : A -> M B) : M B :=
  fun w =>
    match c w with
    | (Returned a, w') => k a w'
    | (Thrown e, w') => (Thrown e, w')
    end.

Notation "'let*' x ':=' c 'in' k" := (bind c (fun x => k))
  (at level 10, x name, c at level 100, k at level 200).
Notation "c ';;;' k" := (bind c (fun _ => k))
  (at level 100, k at level 200, right associativity).

Definition get_state : M (gmap string timer) := fun w => (Returned (state w), w).

Definition get_timers : M (option (gmap string timer)) :=
  fun w => (Returned (timers w), w).

Definition dispatch (a : action) : M unit :=
  fun w => (Returned tt,
            Plugin (pluginReducer (state w) a) (timers w) (emitted w) (logged w) (clock w)).

Definition emit (e : event) : M unit :=
  fun w => (Returned tt,
            Plugin (state w) (timers w) (emitted w ++ [e]) (logged w) (clock w)).

Definition logger (l : level) (m : message) : M unit :=
  fun w => (Returned tt,
            Plugin (state w) (timers w) (emitted w) (logged w ++ [(l, m)]) (clock w)).

(** [for (let x of xs) body]. *)
Fixpoint for_of {A} (xs : list A) (body : A -> M unit) : M unit :=
  match xs with
  | [] => ret tt
  | x :: rest => body x ;;; for_of rest body
  end.

(** [Object.values] of the store slice, in the order the map lists its
    entries.  The facts about the scan below are proved for any snapshot
    without repeated names, so they do not depend on that order. *)
Definition Object_values (m : gmap string timer) : list timer :=
  (map_to_list m).*2.

(** ** Sample data

    A clock that starts at 1000 ms and gains 100 ms with every reading, and a
    duration parser that knows one phrase. *)

Definition clock0 (k : nat) : Z := 1000 + 100 * Z.of_nat k.

Definition parse0 (text : string) : option num :=
  if String.eqb text "1m" then Some (Num 60000) else None.

(** An empty registry whose [timers] property is an empty object, one whose
    property is undefined and which holds a paused timer, and one with two
    running timers, the second of a type without rules. *)
Definition fresh : plugin := Plugin ∅ (Some ∅) [] [] 0.

Definition t_paused : timer :=
  Timer "t" "incrementing" false false (Some 900) (Some (Num 10)) (Num 5000).

Definition w_paused : plugin := Plugin (<["t" := t_paused]> ∅) None [] [] 0.

Definition t_inc : timer :=
  Timer "t" "incrementing" true false (Some 900) (Some (Num 4950)) (Num 5000).

Definition t_laps : timer :=
  Timer "u" "laps" true false (Some 900) (Some (Num 0)) (Num 5000).

Definition w_running : plugin :=
  Plugin (<["t" := t_inc]> (<["u" := t_laps]> ∅)) None [] [] 0.

(** A clock like [clock0] that stops gaining after a thousand readings, and
    a registry with one running timer whose type is the inherited key
    [constructor]. *)
Definition clock1 (k : nat) : Z := 1000 + 100 * Z.of_nat (Nat.min k 1000).

Definition t_ctor : timer :=
  Timer "c" "constructor" true false (Some 900) (Some (Num 10)) (Num 5000).

Definition w_inherited : plugin := Plugin (<["c" := t_ctor]> ∅) None [] [] 0.

Section Timers.

(** The [k]-th reading of the system clock, and the value of the expression
    [juration.parse(text) * 1000] ([None] when the parser throws). *)
Variable Date_getTime : nat -> Z.
Variable juration_parse_ms : string -> option num.

Definition getTime : M Z :=
  fun w => (Returned (Date_getTime (clock w)),
            Plugin (state w) (timers w) (emitted w) (logged w) (S (clock w))).

(** ** The rule tables *)

Definition incrementing (t : timer) : M timer :=
  let* now := getTime in
  let gap := num_sub (Num now) (to_number (Num <$> timestamp t)) in
  let value' := num_add (to_number (value t)) gap in
  ret (Timer (name t) (type t) (running t) (num_gt value' (duration t))
             (Some now) (Some value') (duration t)).

Definition decrementing (t : timer) : M timer :=
  let* now := getTime in
  let gap := num_sub (Num now) (to_number (Num <$> timestamp t)) in
  let value' := num_sub (to_number (value t)) gap in
  ret (Timer (name t) (type t) (running t) (num_lt value' (Num 0))
             (Some now) (Some value') (duration t)).

(** Property lookup in the two object literals, by the keys written in
    them (what a plain object inherits from its prototype is left out). *)
Definition timerFunctions (ty : string) : option (timer -> M timer) :=
  if String.eqb ty "incrementing" then Some incrementing
  else if String.eqb ty "decrementing" then Some decrementing
  else None.

Definition reset_incrementing (t : timer) : timer :=
  Timer (name t) (type t) (running t) (elapsed t) (timestamp t)
        (Some (Num 0)) (duration t).

Definition reset_decrementing (t : timer) : timer :=
  Timer (name t) (type t) (running t) (elapsed t) (timestamp t)
        (Some (duration t)) (duration t).

Definition timerResetFunctions (ty : string) : option (timer -> timer) :=
  if String.eqb ty "incrementing" then Some reset_incrementing
  else if String.eqb ty "decrementing" then Some reset_decrementing
  else None.

(** *** Reading a table by key

    [timerFunctions[key]] is a property read on a plain object: the key's
    own entry if the literal has one, and otherwise what the object inherits
    from [Object.prototype] under that key, if anything. *)

(** The keys every plain object inherits. *)
Definition Object_prototype_keys : list string :=
  ["constructor"; "__defineGetter__"; "__defineSetter__"; "hasOwnProperty";
   "__lookupGetter__"; "__lookupSetter__"; "isPrototypeOf";
   "propertyIsEnumerable"; "toString"; "valueOf"; "__proto__"; "toLocaleString"].

(** The inherited [constructor] is the function [Object], which hands back
    an object it is given.  The other inherited members, called on a record,
    throw or return a string; they are left out of the lookups below, which
    answer for those keys as for a key that is nowhere, and every statement
    that would depend on the difference excludes those keys by name. *)
Definition Object_call (t : timer) : timer := t.

Definition timerFunctions_at (ty : string) : option (timer -> M timer) :=
  match timerFunctions ty with
  | Some f => Some f
  | None =>
      if String.eqb ty "constructor" then Some (fun t => ret (Object_call t))
      else None
  end.

Definition timerResetFunctions_at (ty : string) : option (timer -> timer) :=
  match timerResetFunctions ty with
  | Some f => Some f
  | None => if String.eqb ty "constructor" then Some Object_call else None
  end.

(** A name the store can be asked for without meeting an inherited member,
    and a type the lookups above answer for as the code does. *)
Definition plain_name (n : string) : Prop := n ∉ Object_prototype_keys.

Definition plain_type (ty : string) : Prop :=
  ty = "constructor" \/ ty ∉ Object_prototype_keys.

(** ** The tick engine *)

Definition handleTimers_body (t : timer) : M unit :=
  if negb (running t) then ret tt
  else
    match timerFunctions_at (type t) with
    | None => logger warn (unrecognized_type (name t) (type t))
    | Some timerFunction =>
        let* newTimer := timerFunction t in
        dispatch (setTimerData (name newTimer) newTimer) ;;;
        if elapsed newTimer && negb (elapsed t)
        then emit (timerElapsed newTimer)
        else ret tt
    end.

Definition _handleTimers : M unit :=
  let* timers := get_state in
  for_of (Object_values timers) handleTimers_body.

(** The timer is one the scan advances: it runs and its type has a rule. *)
Definition advances (t : timer) : bool :=
  running t && bool_decide (is_Some (timerFunctions_at (type t))).

(** The scan of [_handleTimers] over a given snapshot. *)
Definition scan (l : list timer) (w : plugin) : plugin :=
  (for_of l handleTimers_body w).2.

(** ** The registry operations *)

Definition _withTimer {A} (timerName : string) (cb : timer -> M A) : M A :=
  let* timers := get_state in
  match timers !! timerName with
  | None => throw (not_found timerName)
  | Some t => cb t
  end.

(** A value of any type, as far as [typeof] tells them apart. *)
Inductive js_value : Type :=
| js_string (s : string)
| js_number (n : num)
| js_other (typeof : string).

(** The [switch (typeof(duration))] of [_createTimer]. *)
Definition resolve_duration (d : js_value) : M num :=
  match d with
  | js_string text =>
      match juration_parse_ms text with
      | None => throw (juration_error text)
      | Some parsed => logger debug (juration_parsed text parsed) ;;; ret parsed
      end
  | js_number n => ret n
  | js_other typeof => throw (invalid_duration_type typeof)
  end.

Definition _createTimer (timerName ty : string) (d : js_value) : M timer :=
  let* this_timers := get_timers in
  match this_timers with
  | None => throw (TypeError "this.timers is undefined")
  | Some registered =>
      match registered !! timerName with
      | Some _ => throw (already_exists timerName)
      | None =>
          let* d := resolve_duration d in
          match timerFunctions_at ty with
          | None => throw (nonexistent_type timerName ty)
          | Some _ =>
              logger info (creating timerName ty d) ;;;
              match timerResetFunctions_at ty with
              | None => throw (TypeError "timerResetFunction is not a function")
              | Some timerResetFunction =>
                  let newTimer :=
                    timerResetFunction (Timer timerName ty false false None None d) in
                  dispatch (setTimerData (name newTimer) newTimer) ;;;
                  emit (timerCreated newTimer) ;;;
                  ret newTimer
              end
          end
      end
  end.

(** [{ deleted: true }] is the only value [_deleteTimer] returns. *)
Definition _deleteTimer (timerName : string) : M unit :=
  _withTimer timerName (fun t =>
    logger info (deleting (name t)) ;;;
    dispatch (deleteTimer_action (name t)) ;;;
    emit (timerDeleted timerName) ;;;
    ret tt).

(** [pause] is [None] when the argument is left out; it then defaults to
    [true]. *)
Definition _resetTimer (timerName : string) (pause : option bool) : M timer :=
  let pause := default true pause in
  _withTimer timerName (fun t =>
    logger info (resetting (name t)) ;;;
    match timerResetFunctions_at (type t) with
    | None => throw (TypeError "timerResetFunctions[timer.type] is not a function")
    | Some timerResetFunction =>
        let newTimer := timerResetFunction t in
        let newTimer :=
          Timer (name newTimer) (type newTimer) (negb pause) false
                (timestamp newTimer) (value newTimer) (duration newTimer) in
        dispatch (setTimerData (name newTimer) newTimer) ;;;
        emit (timerReset newTimer) ;;;
        ret newTimer
    end).

(** The pause and resume callbacks return the new record, or nothing
    ([None]) on the branch that only warns. *)
Definition _pauseTimer (timerName : string) : M (option timer) :=
  _withTimer timerName (fun t =>
    if negb (running t) then
      logger warn (already_paused (name t)) ;;; ret None
    else
      logger info (pausing (name t)) ;;;
      let newTimer :=
        Timer (name t) (type t) false (elapsed t) (timestamp t) (value t) (duration t) in
      dispatch (setTimerData (name newTimer) newTimer) ;;;
      emit (timerPaused newTimer) ;;;
      ret (Some newTimer)).

Definition _resumeTimer (timerName : string) : M (option timer) :=
  _withTimer timerName (fun t =>
    if running t then
      logger warn (already_running (name t)) ;;; ret None
    else
      logger info (resuming (name t)) ;;;
      let* now := getTime in
      let newTimer :=
        Timer (name t) (type t) true (elapsed t) (Some now) (value t) (duration t) in
      dispatch (setTimerData (name newTimer) newTimer) ;;;
      emit (timerResumed newTimer) ;;;
      ret (Some newTimer)).

Definition _toggleTimer (timerName : string) : M (option timer) :=
  _withTimer timerName (fun t =>
    let fn := if running t then _pauseTimer else _resumeTimer in
    fn timerName).

(** ** Everything that can happen to the plugin

    The six registered commands, with the payload fields each handler
    passes on, and the periodic call of [_handleTimers]. *)

Inductive op : Type :=
| CreateTimer (timerName ty : string) (d : js_value)
| DeleteTimer (timerName : string)
| ResetTimer (timerName : string) (pause : option bool)
| PauseTimer (timerName : string)
| ResumeTimer (timerName : string)
| ToggleTimer (timerName : string)
| Tick.

(** The plugin object after [o], whether [o] returned or threw. *)
Definition run (o : op) (w : plugin) : plugin :=
  match o with
  | CreateTimer n ty d => (_createTimer n ty d w).2
  | DeleteTimer n => (_deleteTimer n w).2
  | ResetTimer n pause => (_resetTimer n pause w).2
  | PauseTimer n => (_pauseTimer n w).2
  | ResumeTimer n => (_resumeTimer n w).2
  | ToggleTimer n => (_toggleTimer n w).2
  | Tick => (_handleTimers w).2
  end.

(** Every record is stored under its own name. *)
Definition keyed_by_name (s : gmap string timer) : Prop :=
  map_Forall (fun k t => name t = k) s.

(** Every record has a type the rule tables know. *)
Definition registered_types (s : gmap string timer) : Prop :=
  map_Forall (fun _ t => is_Some (timerResetFunctions (type t))) s.

(** The plugin object after a history of operations, oldest first. *)
Definition run_all (history : list op) (w : plugin) : plugin :=
  foldl (fun w o => run o w) w history.

(** The operations that work on timers already there: the tick, reset,
    pause, resume and toggle. *)
Definition updates_only (o : op) : bool :=
  match o with
  | CreateTimer _ _ _ | DeleteTimer _ => false
  | _ => true
  end.

(** The events a computation added to the sink. *)
Definition new_events (w w' : plugin) : list event :=
  drop (length (emitted w)) (emitted w').

Definition is_timerElapsed_of (n : string) (e : event) : bool :=
  match e with
  | timerElapsed t => bool_decide (name t = n)
  | _ => false
  end.

(** How many [timerElapsed] notifications in [es] carry a record named
    [n]. *)
Definition timerElapsed_count (n : string) (es : list event) : nat :=
  length (List.filter (is_timerElapsed_of n) es).

(** The flag of the timer stored under [n] went from false to true between
    [s] and [s']. *)
Definition rising_edge (s s' : gmap string timer) (n : string) : bool :=
  match s !! n, s' !! n with
  | Some t, Some t' => negb (elapsed t) && elapsed t'
  | _, _ => false
  end.

(** ** Records and effects the statements speak of *)

(** What [_pauseTimer] and [_resumeTimer] build from the record they find,
    and what [_resetTimer] builds with the reset rule [f]. *)
Definition paused (t : timer) : timer :=
  Timer (name t) (type t) false (elapsed t) (timestamp t) (value t) (duration t).

Definition resumed (now : Z) (t : timer) : timer :=
  Timer (name t) (type t) true (elapsed t) (Some now) (value t) (duration t).

Definition reset_record (f : timer -> timer) (pause : option bool) (t : timer) : timer :=
  Timer (name (f t)) (type (f t)) (negb (default true pause)) false
        (timestamp (f t)) (value (f t)) (duration (f t)).

(** The duration a creation input stands for, when it stands for one. *)
Definition duration_of (d : js_value) : option num :=
  match d with
  | js_string text => juration_parse_ms text
  | js_number x => Some x
  | js_other _ => None
  end.

(** What one operation can do to the record stored under [n], when it
    changes it at all. *)
Definition op_effect (o : op) (n : string) (t t' : timer) : Prop :=
  match o with
  | CreateTimer m ty d =>
      m = n /\ exists f dur,
        timerResetFunctions_at ty = Some f /\ duration_of d = Some dur
        /\ t' = f (Timer n ty false false None None dur)
  | DeleteTimer _ => False
  | ResetTimer m pause =>
      m = n /\ exists f,
        timerResetFunctions_at (type t) = Some f /\ t' = reset_record f pause t
  | PauseTimer m => m = n /\ running t = true /\ t' = paused t
  | ResumeTimer m =>
      m = n /\ running t = false /\ exists now, t' = resumed now t
  | ToggleTimer m =>
      m = n /\ ((running t = true /\ t' = paused t)
                \/ (running t = false /\ exists now, t' = resumed now t))
  | Tick =>
      running t = true /\ exists f w1,
        timerFunctions_at (type t) = Some f /\ (f t w1).1 = Returned t'
  end.

(** A command whose names and types keep clear of the inherited keys, so
    that no lookup it causes meets an inherited member. *)
Definition plain_op (o : op) : Prop :=
  match o with
  | CreateTimer n ty _ => plain_name n /\ ty ∉ Object_prototype_keys
  | DeleteTimer n | ResetTimer n _ | PauseTimer n | ResumeTimer n
  | ToggleTimer n => plain_name n
  | Tick => True
  end.

(** A store whose records have types the lookups answer for as the code
    does. *)
Definition plain_types (s : gmap string timer) : Prop :=
  map_Forall (fun _ t => plain_type (type t)) s.

(** The record under [n] is the one that was there. *)
Ltac same_record := simpl; intros; left; congruence.

(** ** How a call ends, and which timer it names *)

(** The error a call ended with, if it threw. *)
Definition thrown {A} (r : outcome A * plugin) : option error :=
  match r.1 with
  | Thrown e => Some e
  | Returned _ => None
  end.

Definition run_error (o : op) (w : plugin) : option error :=
  match o with
  | CreateTimer n ty d => thrown (_createTimer n ty d w)
  | DeleteTimer n => thrown (_deleteTimer n w)
  | ResetTimer n pause => thrown (_resetTimer n pause w)
  | PauseTimer n => thrown (_pauseTimer n w)
  | ResumeTimer n => thrown (_resumeTimer n w)
  | ToggleTimer n => thrown (_toggleTimer n w)
  | Tick => thrown (_handleTimers w)
  end.

(** The name a command hands to [_withTimer]. *)
Definition target (o : op) : option string :=
  match o with
  | DeleteTimer n | ResetTimer n _ | PauseTimer n | ResumeTimer n
  | ToggleTimer n => Some n
  | CreateTimer _ _ _ | Tick => None
  end.

(** The payload of a notification is what the store holds: the record
    under its name, or nothing under a deleted name. *)
Definition event_matches_store (s : gmap string timer) (e : event) : Prop :=
  match e with
  | timerDeleted n => s !! n = None
  | timerCreated t | timerReset t | timerPaused t | timerResumed t
  | timerElapsed t => s !! name t = Some t
  end.

Definition is_timerElapsed (e : event) : bool :=
  match e with
  | timerElapsed _ => true
  | _ => false
  end.

(** ** Facts about the rule tables *)

Lemma timerFunctions_Some ty f :
  timerFunctions ty = Some f ->
  (ty = "incrementing" /\ f = incrementing) \/
  (ty = "decrementing" /\ f = decrementing).
Proof.
  unfold timerFunctions.
  destruct (String.eqb_spec ty "incrementing") as [->|_]; [intros [= <-]; auto|].
  destruct (String.eqb_spec ty "decrementing") as [->|_]; [intros [= <-]; auto|].
  discriminate.
Qed.

Lemma timerResetFunctions_Some ty f :
  timerResetFunctions ty = Some f ->
  (ty = "incrementing" /\ f = reset_incrementing) \/
  (ty = "decrementing" /\ f = reset_decrementing).
Proof.
  unfold timerResetFunctions.
  destruct (String.eqb_spec ty "incrementing") as [->|_]; [intros [= <-]; auto|].
  destruct (String.eqb_spec ty "decrementing") as [->|_]; [intros [= <-]; auto|].
  discriminate.
Qed.

(** The two tables have the same keys. *)
Lemma tables_agree ty :
  is_Some (timerFunctions ty) <-> is_Some (timerResetFunctions ty).
Proof.
  unfold timerFunctions, timerResetFunctions.
  repeat case_match; split; intros [? ?]; eauto; discriminate.
Qed.

(** What an update rule leaves alone, whichever rule it is. *)
Lemma update_rule_frame ty f t w :
  timerFunctions ty = Some f ->
  exists t', f t w = (Returned t',
                      Plugin (state w) (timers w) (emitted w) (logged w) (S (clock w)))
    /\ name t' = name t /\ type t' = type t /\ running t' = running t
    /\ duration t' = duration t /\ timestamp t' = Some (Date_getTime (clock w)).
Proof.
  intros [[_ ->]|[_ ->]]%timerFunctions_Some; eexists; (split; [reflexivity|]); auto.
Qed.

Lemma timerFunctions_at_own ty f :
  timerFunctions ty = Some f -> timerFunctions_at ty = Some f.
Proof. intros H. unfold timerFunctions_at. by rewrite H. Qed.

Lemma timerResetFunctions_at_own ty f :
  timerResetFunctions ty = Some f -> timerResetFunctions_at ty = Some f.
Proof. intros H. unfold timerResetFunctions_at. by rewrite H. Qed.

Lemma timerFunctions_at_Some ty f :
  timerFunctions_at ty = Some f ->
  timerFunctions ty = Some f
  \/ (ty = "constructor" /\ f = fun t => ret (Object_call t)).
Proof.
  unfold timerFunctions_at. destruct (timerFunctions ty); [auto|].
  destruct (String.eqb_spec ty "constructor") as [->|_]; [|discriminate].
  intros [= <-]. auto.
Qed.

Lemma timerResetFunctions_at_Some ty f :
  timerResetFunctions_at ty = Some f ->
  timerResetFunctions ty = Some f \/ (ty = "constructor" /\ f = Object_call).
Proof.
  unfold timerResetFunctions_at. destruct (timerResetFunctions ty); [auto|].
  destruct (String.eqb_spec ty "constructor") as [->|_]; [|discriminate].
  intros [= <-]. auto.
Qed.

Lemma tables_at_agree ty :
  is_Some (timerFunctions_at ty) <-> is_Some (timerResetFunctions_at ty).
Proof.
  unfold timerFunctions_at, timerResetFunctions_at.
  pose proof (tables_agree ty) as [H1 H2].
  destruct (timerFunctions ty), (timerResetFunctions ty);
    try (split; intros; eauto; fail).
  - destruct H1 as [? ?]; [eauto|discriminate].
  - destruct H2 as [? ?]; [eauto|discriminate].
  - destruct (String.eqb ty "constructor"); split; intros [? ?]; eauto; discriminate.
Qed.

(** What any callee the lookup finds leaves alone: it returns a record
    with the same name, type, [running] flag and duration, and does nothing
    to the plugin object except, for the two rules, read the clock. *)
Lemma update_at_frame ty f t w :
  timerFunctions_at ty = Some f ->
  exists t' c,
    f t w = (Returned t', Plugin (state w) (timers w) (emitted w) (logged w) c)
    /\ (clock w <= c <= S (clock w))%nat
    /\ name t' = name t /\ type t' = type t /\ running t' = running t
    /\ duration t' = duration t.
Proof.
  intros [Hf|[_ ->]]%timerFunctions_at_Some.
  - destruct (update_rule_frame _ _ t w Hf) as (t' & Ht' & ? & ? & ? & ? & _).
    exists t', (S (clock w)). repeat split; try done; lia.
  - exists t, (clock w). destruct w. repeat split; try done; simpl; lia.
Qed.


(** ** One pass of the loop body *)

Lemma body_not_running t w :
  running t = false -> handleTimers_body t w = (Returned tt, w).
Proof. intros H. unfold handleTimers_body. by rewrite H. Qed.

Lemma body_unregistered t w :
  running t = true -> timerFunctions_at (type t) = None ->
  handleTimers_body t w =
    (Returned tt,
     Plugin (state w) (timers w) (emitted w)
            (logged w ++ [(warn, unrecognized_type (name t) (type t))]) (clock w)).
Proof. intros H1 H2. unfold handleTimers_body. by rewrite H1, H2. Qed.

Lemma body_update t w f :
  running t = true -> timerFunctions_at (type t) = Some f ->
  exists t' c,
    (f t w).1 = Returned t' /\ name t' = name t /\
    (clock w <= c <= S (clock w))%nat /\
    handleTimers_body t w =
      (Returned tt,
       Plugin (<[name t := t']> (state w)) (timers w)
              (emitted w ++ (if elapsed t' && negb (elapsed t)
                             then [timerElapsed t'] else []))
              (logged w) c).
Proof.
  intros H1 H2.
  destruct (update_at_frame _ _ t w H2) as (t' & c & Hf & Hc & Hn & _).
  exists t', c. rewrite Hf. do 3 (split; [done|]).
  unfold handleTimers_body. rewrite H1, H2. simpl.
  unfold bind. rewrite Hf. simpl. rewrite Hn.
  destruct (_ && _); simpl; [done|]. by rewrite app_nil_r.
Qed.

(** With one of the two rules the clock is read exactly once. *)
Lemma body_own t w f :
  running t = true -> timerFunctions (type t) = Some f ->
  exists t',
    (f t w).1 = Returned t' /\ name t' = name t /\
    handleTimers_body t w =
      (Returned tt,
       Plugin (<[name t := t']> (state w)) (timers w)
              (emitted w ++ (if elapsed t' && negb (elapsed t)
                             then [timerElapsed t'] else []))
              (logged w) (S (clock w))).
Proof.
  intros H1 H2. destruct (update_rule_frame _ _ t w H2) as (t' & Hf & Hn & _).
  exists t'. rewrite Hf. do 2 (split; [done|]).
  unfold handleTimers_body. rewrite H1, (timerFunctions_at_own _ _ H2). simpl.
  unfold bind. rewrite Hf. simpl. rewrite Hn.
  destruct (_ && _); simpl; [done|]. by rewrite app_nil_r.
Qed.

(** The three cases at once, as far as the later lemmas need them. *)
Lemma body_cases t w :
  exists w', handleTimers_body t w = (Returned tt, w') /\
    timers w' = timers w /\
    (advances t = false ->
       state w' = state w /\ emitted w' = emitted w /\ clock w' = clock w) /\
    (advances t = true ->
       exists f t', timerFunctions_at (type t) = Some f
         /\ (f t w).1 = Returned t' /\ name t' = name t
         /\ state w' = <[name t := t']> (state w)
         /\ emitted w' = emitted w ++ (if elapsed t' && negb (elapsed t)
                                       then [timerElapsed t'] else [])
         /\ logged w' = logged w
         /\ (clock w <= clock w' <= S (clock w))%nat).
Proof.
  unfold advances.
  destruct (running t) eqn:Hrun; simpl.
  - destruct (timerFunctions_at (type t)) as [f|] eqn:Hf.
    + destruct (body_update t w f Hrun Hf) as (t' & c & Ht' & Hn & Hc & ->).
      eexists. split; [done|]. split; [done|]. split.
      * rewrite bool_decide_eq_false. intros []. eauto.
      * intros _. exists f, t'. by simpl.
    + rewrite (body_unregistered t w Hrun Hf).
      eexists. split; [done|]. split; [done|]. split; [done|].
      rewrite bool_decide_eq_true. by intros [? ?].
  - rewrite (body_not_running t w Hrun). destruct w. eexists.
    repeat split; done.
Qed.

(** ** The scan over a snapshot *)

Lemma for_of_step t l w w1 :
  handleTimers_body t w = (Returned tt, w1) ->
  for_of (t :: l) handleTimers_body w = for_of l handleTimers_body w1.
Proof. intros H. simpl. unfold bind. by rewrite H. Qed.

Lemma scan_step t l w w1 :
  handleTimers_body t w = (Returned tt, w1) -> scan (t :: l) w = scan l w1.
Proof. intros H. unfold scan. by rewrite (for_of_step _ _ _ _ H). Qed.

(** The scan never throws. *)
Lemma scan_returns l w : (for_of l handleTimers_body w).1 = Returned tt.
Proof.
  revert w. induction l as [|t l IH]; intros w; [done|].
  destruct (body_cases t w) as (w1 & Hb & _).
  rewrite (for_of_step _ _ _ _ Hb). apply IH.
Qed.

Lemma scan_timers l w : timers (scan l w) = timers w.
Proof.
  revert w. induction l as [|t l IH]; intros w; [done|].
  destruct (body_cases t w) as (w1 & Hb & Ht & _).
  rewrite (scan_step _ _ _ _ Hb), IH. done.
Qed.

Lemma scan_clock l w : (clock w <= clock (scan l w))%nat.
Proof.
  revert w. induction l as [|t l IH]; intros w; [done|].
  destruct (body_cases t w) as (w1 & Hb & _ & Hno & Hyes).
  rewrite (scan_step _ _ _ _ Hb). specialize (IH w1).
  destruct (advances t).
  - destruct Hyes as (? & ? & ? & ? & ? & ? & ? & ? & Hc); [done|]. lia.
  - destruct Hno as (_ & _ & Hc); [done|]. lia.
Qed.

(** Log lines are only ever added. *)
Lemma scan_logged l w e : e ∈ logged w -> e ∈ logged (scan l w).
Proof.
  revert w. induction l as [|t l IH]; intros w He; [done|].
  assert (exists w1, handleTimers_body t w = (Returned tt, w1) /\ e ∈ logged w1)
    as (w1 & Hb & He1).
  { unfold handleTimers_body. destruct (running t) eqn:Hrun; simpl; [|eauto].
    destruct (timerFunctions_at (type t)) as [f|] eqn:Hf.
    - destruct (body_update t w f Hrun Hf) as (t' & c & _ & _ & _ & Hb).
      unfold handleTimers_body in Hb. rewrite Hrun, Hf in Hb. simpl in Hb.
      rewrite Hb. eauto.
    - eexists. split; [done|]. simpl. set_solver. }
  rewrite (scan_step _ _ _ _ Hb). by apply IH.
Qed.

(** A name that no advancing timer of the snapshot carries keeps its
    record. *)
Lemma scan_frame l w n :
  (forall t, t ∈ l -> name t = n -> advances t = false) ->
  state (scan l w) !! n = state w !! n.
Proof.
  revert w. induction l as [|t l IH]; intros w Hl; [done|].
  destruct (body_cases t w) as (w1 & Hb & _ & Hno & Hyes).
  rewrite (scan_step _ _ _ _ Hb).
  rewrite IH by (intros; apply Hl; [by right|done]).
  destruct (advances t) eqn:Hadv.
  - destruct Hyes as (? & t' & _ & _ & _ & -> & _); [done|].
    apply lookup_insert_ne. intros Hn.
    specialize (Hl t (list_elem_of_here _ _) Hn). congruence.
  - destruct Hno as (-> & _); done.
Qed.

(** An advancing timer of the snapshot ends up replaced by what its rule
    returned when the scan reached it. *)
Lemma scan_update l w t f :
  NoDup (name <$> l) -> t ∈ l ->
  running t = true -> timerFunctions (type t) = Some f ->
  exists w1 t',
    (clock w <= clock w1 < clock (scan l w))%nat
    /\ (f t w1).1 = Returned t'
    /\ state (scan l w) !! name t = Some t'.
Proof.
  revert w. induction l as [|t0 l IH]; intros w Hnd Hin Hrun Hf.
  { by apply elem_of_nil in Hin. }
  rewrite fmap_cons in Hnd. apply NoDup_cons in Hnd as [Hfresh Hnd].
  apply elem_of_cons in Hin as [->|Hin].
  - destruct (body_own t0 w f Hrun Hf) as (t' & Ht' & _ & Hb).
    rewrite (scan_step _ _ _ _ Hb).
    exists w, t'. split.
    { match goal with |- context [scan l ?w1] => pose proof (scan_clock l w1) as Hc end.
      simpl in Hc. lia. }
    split; [done|].
    rewrite scan_frame.
    + simpl. apply lookup_insert_eq.
    + intros t2 Ht2 Hn. exfalso. apply Hfresh.
      apply list_elem_of_fmap. eauto.
  - destruct (body_cases t0 w) as (w1 & Hb & _ & Hno & Hyes).
    rewrite (scan_step _ _ _ _ Hb).
    destruct (IH w1 Hnd Hin Hrun Hf) as (w2 & t' & Hc & Ht' & Hst).
    exists w2, t'. split; [|done].
    destruct (advances t0).
    + destruct Hyes as (? & ? & ? & ? & ? & ? & ? & ? & Hc1); [done|]. lia.
    + destruct Hno as (_ & _ & Hc1); [done|]. lia.
Qed.

(** The same for any callee the lookup finds. *)
Lemma scan_update_at l w t f :
  NoDup (name <$> l) -> t ∈ l ->
  running t = true -> timerFunctions_at (type t) = Some f ->
  exists w1 t',
    (f t w1).1 = Returned t' /\ state (scan l w) !! name t = Some t'.
Proof.
  revert w. induction l as [|t0 l IH]; intros w Hnd Hin Hrun Hf.
  { by apply elem_of_nil in Hin. }
  rewrite fmap_cons in Hnd. apply NoDup_cons in Hnd as [Hfresh Hnd].
  apply elem_of_cons in Hin as [->|Hin].
  - destruct (body_update t0 w f Hrun Hf) as (t' & c & Ht' & _ & _ & Hb).
    rewrite (scan_step _ _ _ _ Hb).
    exists w, t'. split; [done|].
    rewrite scan_frame.
    + simpl. apply lookup_insert_eq.
    + intros t2 Ht2 Hn. exfalso. apply Hfresh.
      apply list_elem_of_fmap. eauto.
  - destruct (body_cases t0 w) as (w1 & Hb & _).
    rewrite (scan_step _ _ _ _ Hb). by apply IH.
Qed.

(** A running timer of an unregistered type leaves its warning in the
    log. *)
Lemma scan_warns l w t :
  t ∈ l -> running t = true -> timerFunctions_at (type t) = None ->
  (warn, unrecognized_type (name t) (type t)) ∈ logged (scan l w).
Proof.
  revert w. induction l as [|t0 l IH]; intros w Hin Hrun Hf.
  { by apply elem_of_nil in Hin. }
  apply elem_of_cons in Hin as [->|Hin].
  - rewrite (scan_step _ _ _ _ (body_unregistered t0 w Hrun Hf)).
    apply scan_logged. simpl. set_solver.
  - destruct (body_cases t0 w) as (w1 & Hb & _).
    rewrite (scan_step _ _ _ _ Hb). by apply IH.
Qed.

Lemma timerElapsed_count_app n es1 es2 :
  timerElapsed_count n (es1 ++ es2) =
  (timerElapsed_count n es1 + timerElapsed_count n es2)%nat.
Proof. unfold timerElapsed_count. by rewrite List.filter_app, length_app. Qed.

Lemma rising_edge_lookup s1 s1' s2 s2' n :
  s1 !! n = s2 !! n -> s1' !! n = s2' !! n ->
  rising_edge s1 s1' n = rising_edge s2 s2' n.
Proof. unfold rising_edge. by intros -> ->. Qed.

(** The notifications of a scan are exactly the false-to-true changes it
    made, one for each. *)
Lemma scan_edge l w :
  NoDup (name <$> l) ->
  (forall t, t ∈ l -> state w !! name t = Some t) ->
  exists new,
    emitted (scan l w) = emitted w ++ new /\
    forall n, timerElapsed_count n new =
              if rising_edge (state w) (state (scan l w)) n then 1%nat else 0%nat.
Proof.
  revert w. induction l as [|t l IH]; intros w Hnd Hsnap.
  { exists []. split; [by rewrite app_nil_r|]. intros n.
    unfold rising_edge, scan. simpl.
    destruct (state w !! n) as [t|]; [|done]. by destruct (elapsed t). }
  rewrite fmap_cons in Hnd. apply NoDup_cons in Hnd as [Hfresh Hnd].
  assert (Hother : forall t2, t2 ∈ l -> name t2 <> name t).
  { intros t2 Ht2 Hn. apply Hfresh. apply list_elem_of_fmap. eauto. }
  destruct (body_cases t w) as (w1 & Hb & _ & Hno & Hyes).
  rewrite (scan_step _ _ _ _ Hb).
  destruct (advances t) eqn:Hadv.
  - destruct Hyes as (f & t' & _ & _ & Hn' & Hst & Hem & _); [done|].
    destruct (IH w1 Hnd) as (new' & Hnew' & Hcount).
    { intros t2 Ht2. rewrite Hst, lookup_insert_ne by (symmetry; auto).
      apply Hsnap. by right. }
    eexists. split; [rewrite Hnew', Hem, <- app_assoc; reflexivity|].
    intros n. rewrite timerElapsed_count_app, Hcount.
    destruct (decide (n = name t)) as [->|Hne].
    + assert (Hfin : state (scan l w1) !! name t = Some t').
      { rewrite scan_frame; [rewrite Hst; apply lookup_insert_eq|].
        intros t2 Ht2 Hn2. by destruct (Hother t2 Ht2). }
      unfold rising_edge. rewrite Hfin, Hst, lookup_insert_eq.
      rewrite (Hsnap t) by left.
      destruct (elapsed t'), (elapsed t); simpl; unfold timerElapsed_count; simpl;
        rewrite ?Hn', ?bool_decide_true; done.
    + rewrite (rising_edge_lookup (state w1) _ (state w) (state (scan l w1)) n);
        [|by rewrite Hst, lookup_insert_ne|done].
      destruct (elapsed t' && negb (elapsed t)); [|done].
      unfold timerElapsed_count at 1. simpl.
      rewrite Hn', bool_decide_false by done. done.
  - destruct Hno as (Hst & Hem & _); [done|].
    destruct (IH w1 Hnd) as (new' & Hnew' & Hcount).
    { intros t2 Ht2. rewrite Hst. apply Hsnap. by right. }
    exists new'. rewrite Hnew', Hem. split; [done|].
    intros n. by rewrite Hcount, Hst.
Qed.

(** ** The snapshot read by [_handleTimers] *)

Lemma elem_of_Object_values s t :
  t ∈ Object_values s <-> exists k, s !! k = Some t.
Proof.
  unfold Object_values. rewrite list_elem_of_fmap. split.
  - intros ([k t'] & -> & Hin). exists k. by apply elem_of_map_to_list.
  - intros (k & Hk). exists (k, t). split; [done|]. by apply elem_of_map_to_list.
Qed.

Lemma Object_values_names s :
  keyed_by_name s -> name <$> Object_values s = (map_to_list s).*1.
Proof.
  intros Hk. unfold Object_values. rewrite <- list_fmap_compose.
  apply list_fmap_ext. intros i [k t] Hi. simpl.
  apply Hk. apply elem_of_map_to_list. by eapply list_elem_of_lookup_2.
Qed.

Lemma Object_values_NoDup s :
  keyed_by_name s -> NoDup (name <$> Object_values s).
Proof. intros Hk. rewrite Object_values_names by done. apply NoDup_fst_map_to_list. Qed.

Lemma Object_values_snapshot s t :
  keyed_by_name s -> t ∈ Object_values s -> s !! name t = Some t.
Proof.
  intros Hk (k & Hkt)%elem_of_Object_values. by rewrite (Hk _ _ Hkt).
Qed.

Lemma handleTimers_scan w :
  _handleTimers w = (Returned tt, scan (Object_values (state w)) w).
Proof.
  unfold _handleTimers, bind, get_state, scan.
  pose proof (scan_returns (Object_values (state w)) w) as H.
  destruct (for_of _ _ w) as [o w']. simpl in *. by rewrite H.
Qed.

(** ** The registry operations, case by case *)

Lemma withTimer_found {A} n (cb : timer -> M A) w t :
  state w !! n = Some t -> _withTimer n cb w = cb t w.
Proof. intros H. unfold _withTimer, bind, get_state. by rewrite H. Qed.

Lemma withTimer_missing {A} n (cb : timer -> M A) w :
  state w !! n = None -> _withTimer n cb w = (Thrown (not_found n), w).
Proof. intros H. unfold _withTimer, bind, get_state. by rewrite H. Qed.

Lemma pauseTimer_running n w t :
  state w !! n = Some t -> running t = true ->
  _pauseTimer n w =
    (Returned (Some (paused t)),
     Plugin (<[name t := paused t]> (state w)) (timers w)
            (emitted w ++ [timerPaused (paused t)])
            (logged w ++ [(info, pausing (name t))]) (clock w)).
Proof.
  intros H Hrun. unfold _pauseTimer. rewrite (withTimer_found _ _ _ _ H).
  by rewrite Hrun.
Qed.

Lemma pauseTimer_paused n w t :
  state w !! n = Some t -> running t = false ->
  _pauseTimer n w =
    (Returned None,
     Plugin (state w) (timers w) (emitted w)
            (logged w ++ [(warn, already_paused (name t))]) (clock w)).
Proof.
  intros H Hrun. unfold _pauseTimer. rewrite (withTimer_found _ _ _ _ H).
  by rewrite Hrun.
Qed.

Lemma resumeTimer_paused n w t :
  state w !! n = Some t -> running t = false ->
  let t' := resumed (Date_getTime (clock w)) t in
  _resumeTimer n w =
    (Returned (Some t'),
     Plugin (<[name t := t']> (state w)) (timers w)
            (emitted w ++ [timerResumed t'])
            (logged w ++ [(info, resuming (name t))]) (S (clock w))).
Proof.
  intros H Hrun. unfold _resumeTimer. rewrite (withTimer_found _ _ _ _ H).
  by rewrite Hrun.
Qed.

Lemma resumeTimer_running n w t :
  state w !! n = Some t -> running t = true ->
  _resumeTimer n w =
    (Returned None,
     Plugin (state w) (timers w) (emitted w)
            (logged w ++ [(warn, already_running (name t))]) (clock w)).
Proof.
  intros H Hrun. unfold _resumeTimer. rewrite (withTimer_found _ _ _ _ H).
  by rewrite Hrun.
Qed.

Lemma toggleTimer_found n w t :
  state w !! n = Some t ->
  _toggleTimer n w = if running t then _pauseTimer n w else _resumeTimer n w.
Proof.
  intros H. unfold _toggleTimer. rewrite (withTimer_found _ _ _ _ H).
  by destruct (running t).
Qed.

Lemma resetTimer_found n pause w t f :
  state w !! n = Some t -> timerResetFunctions_at (type t) = Some f ->
  let t' := reset_record f pause t in
  _resetTimer n pause w =
    (Returned t',
     Plugin (<[name t' := t']> (state w)) (timers w)
            (emitted w ++ [timerReset t'])
            (logged w ++ [(info, resetting (name t))]) (clock w)).
Proof.
  intros H Hf. unfold _resetTimer. rewrite (withTimer_found _ _ _ _ H).
  unfold bind. simpl. by rewrite Hf.
Qed.

Lemma resetTimer_untyped n pause w t :
  state w !! n = Some t -> timerResetFunctions_at (type t) = None ->
  state (_resetTimer n pause w).2 = state w.
Proof.
  intros H Hf. unfold _resetTimer. rewrite (withTimer_found _ _ _ _ H).
  unfold bind. simpl. by rewrite Hf.
Qed.

Lemma deleteTimer_found n w t :
  state w !! n = Some t ->
  _deleteTimer n w =
    (Returned tt,
     Plugin (delete (name t) (state w)) (timers w)
            (emitted w ++ [timerDeleted n])
            (logged w ++ [(info, deleting (name t))]) (clock w)).
Proof. intros H. unfold _deleteTimer. by rewrite (withTimer_found _ _ _ _ H). Qed.

(** What any callee the reset lookup finds leaves alone. *)
Lemma reset_at_frame ty f t :
  timerResetFunctions_at ty = Some f ->
  name (f t) = name t /\ type (f t) = type t /\ timestamp (f t) = timestamp t
  /\ duration (f t) = duration t
  /\ running (f t) = running t /\ elapsed (f t) = elapsed t.
Proof.
  intros [[[-> ->]|[-> ->]]%timerResetFunctions_Some|[_ ->]]%timerResetFunctions_at_Some;
    done.
Qed.

Lemma reset_rule_frame ty f t :
  timerResetFunctions ty = Some f ->
  name (f t) = name t /\ type (f t) = type t /\ timestamp (f t) = timestamp t
  /\ duration (f t) = duration t
  /\ value (f t) = Some (if String.eqb ty "incrementing" then Num 0 else duration t).
Proof.
  intros [[-> ->]|[-> ->]]%timerResetFunctions_Some; done.
Qed.

Lemma resolve_duration_spec d w :
  exists w0, state w0 = state w /\ emitted w0 = emitted w /\ timers w0 = timers w /\
    match duration_of d with
    | Some dur => resolve_duration d w = (Returned dur, w0)
    | None => exists e, resolve_duration d w = (Thrown e, w0)
    end.
Proof.
  destruct d as [text|x|other]; simpl.
  - destruct (juration_parse_ms text) as [parsed|].
    + by eexists (Plugin _ _ _ _ _).
    + exists w. eauto.
  - exists w. eauto.
  - exists w. eauto 6.
Qed.

(** [_createTimer] either throws and leaves the store as it was, or stores,
    announces and returns the freshly reset record. *)
Lemma createTimer_cases n ty d w :
  (exists e, (_createTimer n ty d w).1 = Thrown e
             /\ state (_createTimer n ty d w).2 = state w
             /\ emitted (_createTimer n ty d w).2 = emitted w)
  \/
  (exists f dur registered,
     timerResetFunctions_at ty = Some f
     /\ timers w = Some registered /\ registered !! n = None
     /\ duration_of d = Some dur
     /\ (_createTimer n ty d w).1 = Returned (f (Timer n ty false false None None dur))
     /\ state (_createTimer n ty d w).2 =
          <[n := f (Timer n ty false false None None dur)]> (state w)
     /\ emitted (_createTimer n ty d w).2 =
          emitted w ++ [timerCreated (f (Timer n ty false false None None dur))]).
Proof.
  unfold _createTimer, bind, get_timers. simpl.
  destruct (timers w) as [registered|] eqn:Hreg; [|left; eauto].
  destruct (registered !! n) eqn:Hn; [left; eauto|].
  destruct (resolve_duration_spec d w) as (w0 & Hs & He & _ & Hd).
  destruct (duration_of d) as [dur|]; [|destruct Hd as (e & ->); left; eauto].
  rewrite Hd.
  destruct (timerFunctions_at ty) as [g|] eqn:Hg; [|left; eauto].
  destruct (timerResetFunctions_at ty) as [f|] eqn:Hf; simpl; [|left; eauto].
  right. exists f, dur, registered. do 4 (split; [done|]).
  destruct (reset_at_frame ty f (Timer n ty false false None None dur) Hf)
    as (Hname & _).
  rewrite Hname, Hs, He. done.
Qed.

(** ** The invariant: every record sits under its own name *)

Lemma keyed_insert s k t :
  keyed_by_name s -> name t = k -> keyed_by_name (<[k := t]> s).
Proof.
  intros Hs Hn k' t'. rewrite lookup_insert_Some.
  intros [[<- <-]|[_ H]]; [done|by apply Hs].
Qed.

Lemma keyed_delete s k : keyed_by_name s -> keyed_by_name (delete k s).
Proof. intros Hs k' t'. rewrite lookup_delete_Some. intros [_ H]. by apply Hs. Qed.

Lemma scan_keyed l w :
  keyed_by_name (state w) -> keyed_by_name (state (scan l w)).
Proof.
  revert w. induction l as [|t l IH]; intros w Hk; [done|].
  destruct (body_cases t w) as (w1 & Hb & _ & Hno & Hyes).
  rewrite (scan_step _ _ _ _ Hb). apply IH.
  destruct (advances t).
  - destruct Hyes as (f & t' & _ & _ & Hn & -> & _); [done|]. by apply keyed_insert.
  - destruct Hno as (-> & _); done.
Qed.

Lemma run_keyed o w :
  keyed_by_name (state w) -> keyed_by_name (state (run o w)).
Proof.
  intros Hk. destruct o as [m ty d|m|m pause|m|m|m|]; simpl.
  - destruct (createTimer_cases m ty d w)
      as [(e & _ & -> & _)|(f & dur & reg & Hf & _ & _ & _ & _ & -> & _)]; [done|].
    apply keyed_insert; [done|]. by destruct (reset_at_frame _ _
      (Timer m ty false false None None dur) Hf) as (-> & _).
  - destruct (state w !! m) as [tm|] eqn:Hm.
    + rewrite (deleteTimer_found _ _ _ Hm). by apply keyed_delete.
    + unfold _deleteTimer. by rewrite withTimer_missing.
  - destruct (state w !! m) as [tm|] eqn:Hm.
    + destruct (timerResetFunctions_at (type tm)) as [f|] eqn:Hf.
      * rewrite (resetTimer_found _ pause _ _ _ Hm Hf). by apply keyed_insert.
      * by rewrite (resetTimer_untyped _ pause _ _ Hm Hf).
    + unfold _resetTimer. by rewrite withTimer_missing.
  - destruct (state w !! m) as [tm|] eqn:Hm.
    + destruct (running tm) eqn:Hrun.
      * rewrite (pauseTimer_running _ _ _ Hm Hrun). by apply keyed_insert.
      * by rewrite (pauseTimer_paused _ _ _ Hm Hrun).
    + unfold _pauseTimer. by rewrite withTimer_missing.
  - destruct (state w !! m) as [tm|] eqn:Hm.
    + destruct (running tm) eqn:Hrun.
      * by rewrite (resumeTimer_running _ _ _ Hm Hrun).
      * rewrite (resumeTimer_paused _ _ _ Hm Hrun). by apply keyed_insert.
    + unfold _resumeTimer. by rewrite withTimer_missing.
  - destruct (state w !! m) as [tm|] eqn:Hm.
    + rewrite (toggleTimer_found _ _ _ Hm). destruct (running tm) eqn:Hrun.
      * rewrite (pauseTimer_running _ _ _ Hm Hrun). by apply keyed_insert.
      * rewrite (resumeTimer_paused _ _ _ Hm Hrun). by apply keyed_insert.
    + unfold _toggleTimer. by rewrite withTimer_missing.
  - rewrite handleTimers_scan. by apply scan_keyed.
Qed.

(** ** What one operation can do to one record *)

Lemma run_record o w n t t' :
  keyed_by_name (state w) ->
  state w !! n = Some t -> state (run o w) !! n = Some t' ->
  t' = t \/ op_effect o n t t'.
Proof.
  intros Hk Hn. pose proof (Hk _ _ Hn) as Hname.
  destruct o as [m ty d|m|m pause|m|m|m|]; simpl.
  - destruct (createTimer_cases m ty d w)
      as [(e & _ & -> & _)|(f & dur & reg & Hf & _ & _ & Hd & _ & -> & _)].
    { same_record. }
    rewrite lookup_insert_Some. intros [[-> <-]|[_ H]]; [|same_record].
    right. split; [done|]. eauto.
  - destruct (state w !! m) as [tm|] eqn:Hm.
    + rewrite (deleteTimer_found _ _ _ Hm). simpl.
      rewrite lookup_delete_Some. intros [_ H]. same_record.
    + unfold _deleteTimer. rewrite withTimer_missing by done. same_record.
  - destruct (state w !! m) as [tm|] eqn:Hm.
    + destruct (timerResetFunctions_at (type tm)) as [f|] eqn:Hf.
      * rewrite (resetTimer_found _ pause _ _ _ Hm Hf). simpl.
        destruct (reset_at_frame _ _ tm Hf) as (-> & _). rewrite (Hk _ _ Hm).
        rewrite lookup_insert_Some. intros [[-> <-]|[_ H]]; [|same_record].
        right. split; [done|]. exists f. split; congruence.
      * rewrite (resetTimer_untyped _ pause _ _ Hm Hf). same_record.
    + unfold _resetTimer. rewrite withTimer_missing by done. same_record.
  - destruct (state w !! m) as [tm|] eqn:Hm.
    + destruct (running tm) eqn:Hrun.
      * rewrite (pauseTimer_running _ _ _ Hm Hrun). simpl. rewrite (Hk _ _ Hm).
        rewrite lookup_insert_Some. intros [[-> <-]|[_ H]]; [|same_record].
        right. split; [done|]. split; congruence.
      * rewrite (pauseTimer_paused _ _ _ Hm Hrun). same_record.
    + unfold _pauseTimer. rewrite withTimer_missing by done. same_record.
  - destruct (state w !! m) as [tm|] eqn:Hm.
    + destruct (running tm) eqn:Hrun.
      * rewrite (resumeTimer_running _ _ _ Hm Hrun). same_record.
      * rewrite (resumeTimer_paused _ _ _ Hm Hrun). simpl. rewrite (Hk _ _ Hm).
        rewrite lookup_insert_Some. intros [[-> <-]|[_ H]]; [|same_record].
        right. split; [done|]. split; [congruence|]. eexists. f_equal; congruence.
    + unfold _resumeTimer. rewrite withTimer_missing by done. same_record.
  - destruct (state w !! m) as [tm|] eqn:Hm.
    + rewrite (toggleTimer_found _ _ _ Hm). destruct (running tm) eqn:Hrun.
      * rewrite (pauseTimer_running _ _ _ Hm Hrun). simpl. rewrite (Hk _ _ Hm).
        rewrite lookup_insert_Some. intros [[-> <-]|[_ H]]; [|same_record].
        right. split; [done|]. left. split; congruence.
      * rewrite (resumeTimer_paused _ _ _ Hm Hrun). simpl. rewrite (Hk _ _ Hm).
        rewrite lookup_insert_Some. intros [[-> <-]|[_ H]]; [|same_record].
        right. split; [done|]. right. split; [congruence|].
        eexists. f_equal; congruence.
    + unfold _toggleTimer. rewrite withTimer_missing by done. same_record.
  - rewrite handleTimers_scan. simpl.
    assert (Hin : t ∈ Object_values (state w)) by (apply elem_of_Object_values; eauto).
    destruct (advances t) eqn:Hadv.
    + unfold advances in Hadv. apply andb_true_iff in Hadv as [Hrun Hf].
      apply bool_decide_eq_true in Hf as [f Hf].
      destruct (scan_update_at _ w t f (Object_values_NoDup _ Hk) Hin Hrun Hf)
        as (w1 & t1 & Ht1 & Hst).
      rewrite Hname in Hst. rewrite Hst. intros [= <-]. right. split; eauto.
    + rewrite scan_frame; [same_record|].
      intros t2 Ht2 Hn2. apply (Object_values_snapshot _ _ Hk) in Ht2.
      rewrite Hn2 in Ht2. congruence.
Qed.

(** A name that was free is taken only by a creation. *)
Lemma run_record_new o w n t' :
  keyed_by_name (state w) ->
  state w !! n = None -> state (run o w) !! n = Some t' ->
  exists ty d f dur,
    o = CreateTimer n ty d /\ timerResetFunctions_at ty = Some f
    /\ duration_of d = Some dur
    /\ t' = f (Timer n ty false false None None dur).
Proof.
  intros Hk Hn.
  assert (Hins : forall m tm v, state w !! m = Some tm ->
            <[name tm := v]> (state w) !! n = Some t' -> False).
  { intros m tm v Hm. rewrite (Hk _ _ Hm), lookup_insert_Some.
    intros [[-> _]|[_ H]]; congruence. }
  destruct o as [m ty d|m|m pause|m|m|m|]; simpl.
  - destruct (createTimer_cases m ty d w)
      as [(e & _ & -> & _)|(f & dur & reg & Hf & _ & _ & Hd & _ & -> & _)];
      [congruence|].
    rewrite lookup_insert_Some. intros [[-> <-]|[_ H]]; [|congruence].
    by exists ty, d, f, dur.
  - destruct (state w !! m) as [tm|] eqn:Hm.
    + rewrite (deleteTimer_found _ _ _ Hm). simpl.
      rewrite lookup_delete_Some. intros [_ H]. congruence.
    + unfold _deleteTimer. rewrite withTimer_missing by done. simpl. congruence.
  - destruct (state w !! m) as [tm|] eqn:Hm.
    + destruct (timerResetFunctions_at (type tm)) as [f|] eqn:Hf.
      * rewrite (resetTimer_found _ pause _ _ _ Hm Hf). simpl.
        destruct (reset_at_frame _ _ tm Hf) as (-> & _).
        intros H. by destruct (Hins _ _ _ Hm H).
      * rewrite (resetTimer_untyped _ pause _ _ Hm Hf). congruence.
    + unfold _resetTimer. rewrite withTimer_missing by done. simpl. congruence.
  - destruct (state w !! m) as [tm|] eqn:Hm.
    + destruct (running tm) eqn:Hrun.
      * rewrite (pauseTimer_running _ _ _ Hm Hrun). simpl.
        intros H. by destruct (Hins _ _ _ Hm H).
      * rewrite (pauseTimer_paused _ _ _ Hm Hrun). simpl. congruence.
    + unfold _pauseTimer. rewrite withTimer_missing by done. simpl. congruence.
  - destruct (state w !! m) as [tm|] eqn:Hm.
    + destruct (running tm) eqn:Hrun.
      * rewrite (resumeTimer_running _ _ _ Hm Hrun). simpl. congruence.
      * rewrite (resumeTimer_paused _ _ _ Hm Hrun). simpl.
        intros H. by destruct (Hins _ _ _ Hm H).
    + unfold _resumeTimer. rewrite withTimer_missing by done. simpl. congruence.
  - destruct (state w !! m) as [tm|] eqn:Hm.
    + rewrite (toggleTimer_found _ _ _ Hm). destruct (running tm) eqn:Hrun.
      * rewrite (pauseTimer_running _ _ _ Hm Hrun). simpl.
        intros H. by destruct (Hins _ _ _ Hm H).
      * rewrite (resumeTimer_paused _ _ _ Hm Hrun). simpl.
        intros H. by destruct (Hins _ _ _ Hm H).
    + unfold _toggleTimer. rewrite withTimer_missing by done. simpl. congruence.
  - rewrite handleTimers_scan. simpl. rewrite scan_frame; [congruence|].
    intros t2 Ht2 Hn2. apply (Object_values_snapshot _ _ Hk) in Ht2.
    rewrite Hn2 in Ht2. congruence.
Qed.

(** ** The invariant: every record has a registered type *)

Lemma constructor_inherited : "constructor" ∈ Object_prototype_keys.
Proof. unfold Object_prototype_keys. set_solver. Qed.


Lemma reset_at_own ty f :
  timerResetFunctions_at ty = Some f -> ty ∉ Object_prototype_keys ->
  timerResetFunctions ty = Some f.
Proof.
  intros [H|[-> _]]%timerResetFunctions_at_Some Hty; [done|].
  by destruct (Hty constructor_inherited).
Qed.

Lemma run_registered o w :
  keyed_by_name (state w) -> registered_types (state w) -> plain_op o ->
  registered_types (state (run o w)).
Proof.
  intros Hk Hreg Hplain n t' Hn'.
  destruct (state w !! n) as [t|] eqn:Hn.
  - pose proof (Hreg _ _ Hn) as Ht. simpl in Ht.
    destruct (run_record o w n t t' Hk Hn Hn') as [->|Heff]; [done|].
    destruct o as [m ty d|m|m pause|m|m|m|]; simpl in Heff.
    + destruct Heff as (_ & f & dur & Hf & _ & ->). simpl in Hplain.
      destruct (reset_at_frame _ _ (Timer n ty false false None None dur) Hf)
        as (_ & -> & _). simpl. exists f. apply reset_at_own; [done|tauto].
    + done.
    + destruct Heff as (_ & f & Hf & ->). simpl.
      by destruct (reset_at_frame _ _ t Hf) as (_ & -> & _).
    + by destruct Heff as (_ & _ & ->).
    + by destruct Heff as (_ & _ & now & ->).
    + by destruct Heff as (_ & [(_ & ->)|(_ & now & ->)]).
    + destruct Heff as (_ & f & w1 & Hf & Hft).
      destruct (update_at_frame _ _ t w1 Hf) as (t2 & c & Hft2 & _ & _ & Hty & _).
      rewrite Hft2 in Hft. simpl in Hft. injection Hft as <-. by rewrite Hty.
  - destruct (run_record_new o w n t' Hk Hn Hn')
      as (ty & d & f & dur & -> & Hf & _ & ->). simpl in Hplain.
    destruct (reset_at_frame _ _ (Timer n ty false false None None dur) Hf)
      as (_ & -> & _). simpl. exists f. apply reset_at_own; [done|tauto].
Qed.

Lemma run_all_registered history w :
  keyed_by_name (state w) -> registered_types (state w) ->
  Forall plain_op history ->
  registered_types (state (run_all history w)).
Proof.
  revert w. induction history as [|o history IH]; intros w Hk Hreg Hall; [done|].
  apply Forall_cons in Hall as [Ho Hall].
  simpl. apply IH; [by apply run_keyed|by apply run_registered|done].
Qed.

Lemma run_all_keyed history w :
  keyed_by_name (state w) -> keyed_by_name (state (run_all history w)).
Proof.
  revert w. induction history as [|o history IH]; intros w Hk; [done|].
  simpl. apply IH. by apply run_keyed.
Qed.

Lemma new_events_app w w' new :
  emitted w' = emitted w ++ new -> new_events w w' = new.
Proof. intros H. unfold new_events. rewrite H. apply drop_app_length. Qed.

(** ** The tick engine: notifications *)

(** C2. After any history of operations, the tick raises a [timerElapsed]
    notification for the timer named [n] exactly when that tick turns the
    timer's [elapsed] flag from false to true, and then raises one; a timer
    that stays elapsed, or falls back to not elapsed, gets none. *)
Theorem timerElapsed_iff_rising_edge (history : list op) (w0 : plugin) (n : string) :
  keyed_by_name (state w0) ->
  let w := run_all history w0 in
  let w' := run Tick w in
  timerElapsed_count n (new_events w w') =
    if rising_edge (state w) (state w') n then 1%nat else 0%nat.
Proof.
  intros Hk0 w w'.
  assert (Hk : keyed_by_name (state w)) by by apply run_all_keyed.
  subst w'. simpl. rewrite handleTimers_scan. simpl.
  destruct (scan_edge (Object_values (state w)) w) as (new & Hnew & Hcount).
  - by apply Object_values_NoDup.
  - intros t Ht. by apply Object_values_snapshot.
  - by rewrite (new_events_app _ _ _ Hnew).
Qed.

(** ** The tick engine: paused timers *)

Lemma tick_paused w n t :
  keyed_by_name (state w) -> state w !! n = Some t -> running t = false ->
  state (run Tick w) !! n = Some t.
Proof.
  intros Hk Hn Hrun. simpl. rewrite handleTimers_scan. simpl.
  rewrite scan_frame; [done|].
  intros t2 Ht2 Hn2. apply (Object_values_snapshot _ _ Hk) in Ht2.
  rewrite Hn2, Hn in Ht2. injection Ht2 as <-.
  unfold advances. by rewrite Hrun.
Qed.

Lemma ticks_keyed k w :
  keyed_by_name (state w) -> keyed_by_name (state (Nat.iter k (run Tick) w)).
Proof. intros Hk. induction k as [|k IH]; [done|]. by apply (run_keyed Tick). Qed.

(** C3, as amended. A timer that is not running keeps its whole record
    through any number of ticks; the operations that turn [running] on are
    [_resumeTimer], [_toggleTimer] and [_resetTimer] with [pause] false. *)
Theorem paused_timer_ignored_by_ticks (w : plugin) (n : string) (t : timer) :
  keyed_by_name (state w) ->
  state w !! n = Some t ->
  running t = false ->
  (forall k, state (Nat.iter k (run Tick) w) !! n = Some t)
  /\ (forall o t',
        state (run o w) !! n = Some t' -> running t' = true ->
        o = ResumeTimer n \/ o = ToggleTimer n \/ o = ResetTimer n (Some false)).
Proof.
  intros Hk Hn Hrun. split.
  - induction k as [|k IH]; [done|].
    change (Nat.iter (S k) (run Tick) w) with (run Tick (Nat.iter k (run Tick) w)).
    apply tick_paused; [by apply ticks_keyed|done|done].
  - intros o t' Hn' Hrun'.
    destruct (run_record o w n t t' Hk Hn Hn') as [->|Heff]; [congruence|].
    destruct o as [m ty d|m|m pause|m|m|m|]; simpl in Heff.
    + destruct Heff as (_ & f & dur & Hf & _ & ->).
      destruct (reset_at_frame _ _ (Timer n ty false false None None dur) Hf)
        as (_ & _ & _ & _ & Hr & _).
      rewrite Hr in Hrun'. discriminate.
    + done.
    + destruct Heff as (-> & f & Hf & ->). simpl in Hrun'.
      destruct pause as [[]|]; simpl in Hrun'; try discriminate. auto.
    + destruct Heff as (_ & ? & _). congruence.
    + destruct Heff as (-> & _). auto.
    + destruct Heff as (-> & _). auto.
    + destruct Heff as (? & _). congruence.
Qed.

(** ** Creating over an existing name *)

(** [_createTimer] looks the name up in [this.timers].  When that property
    holds the store slice, an existing name is refused and nothing
    changes. *)
Lemma createTimer_refuses_registered n ty d w registered :
  timers w = Some registered -> is_Some (registered !! n) ->
  _createTimer n ty d w = (Thrown (already_exists n), w).
Proof.
  intros Hreg [t Ht]. unfold _createTimer, bind, get_timers. simpl.
  by rewrite Hreg, Ht.
Qed.

(** When the property is [undefined] the lookup itself throws. *)
Lemma createTimer_without_timers n ty d w :
  timers w = None ->
  _createTimer n ty d w = (Thrown (TypeError "this.timers is undefined"), w).
Proof.
  intros Hreg. unfold _createTimer, bind, get_timers. simpl. by rewrite Hreg.
Qed.

(** ** Reset, pause, resume, toggle *)

(** C5, as amended. Resetting an existing timer whose type is
    incrementing or decrementing returns, stores and announces a record with
    the type's reset value (0 for incrementing, the duration for
    decrementing), [elapsed] false, [running] the negation of [pause], and
    the timestamp, name, type and duration it had. *)
Theorem resetTimer_record (w : plugin) (n : string) (t : timer) (pause : bool) :
  state w !! n = Some t ->
  type t = "incrementing" \/ type t = "decrementing" ->
  let reset_value :=
    if String.eqb (type t) "incrementing" then Num 0 else duration t in
  let t' := Timer (name t) (type t) (negb pause) false (timestamp t)
                  (Some reset_value) (duration t) in
  (_resetTimer n (Some pause) w).1 = Returned t'
  /\ state (_resetTimer n (Some pause) w).2 = <[name t := t']> (state w)
  /\ emitted (_resetTimer n (Some pause) w).2 = emitted w ++ [timerReset t']
  /\ clock (_resetTimer n (Some pause) w).2 = clock w.
Proof.
  intros Hn Hty reset_value t'.
  assert (exists f, timerResetFunctions (type t) = Some f) as [f Hf].
  { destruct Hty as [-> | ->]; eauto. }
  rewrite (resetTimer_found _ (Some pause) _ _ _ Hn (timerResetFunctions_at_own _ _ Hf)).
  simpl.
  destruct (reset_rule_frame _ _ t Hf) as (Hname & Htype & Hts & Hdur & Hval).
  assert (reset_record f (Some pause) t = t') as ->; [|by rewrite Hname].
  unfold reset_record, t', reset_value. simpl.
  by rewrite Hname, Htype, Hts, Hdur, Hval.
Qed.

(** C6. Resuming a paused timer returns and stores a record that runs and
    carries the current clock reading, with every other field as before;
    pausing a timer and then resuming it therefore gives back the value it
    had. *)
Theorem resumeTimer_record (w : plugin) (n : string) (t : timer) :
  keyed_by_name (state w) ->
  state w !! n = Some t ->
  (running t = false ->
     let t' := Timer (name t) (type t) true (elapsed t)
                     (Some (Date_getTime (clock w))) (value t) (duration t) in
     (_resumeTimer n w).1 = Returned (Some t')
     /\ state (_resumeTimer n w).2 = <[n := t']> (state w)
     /\ emitted (_resumeTimer n w).2 = emitted w ++ [timerResumed t'])
  /\ (let w1 := (_pauseTimer n w).2 in
      exists t'', (_resumeTimer n w1).1 = Returned (Some t'')
        /\ state (_resumeTimer n w1).2 !! n = Some t''
        /\ value t'' = value t
        /\ running t'' = true
        /\ timestamp t'' = Some (Date_getTime (clock w))).
Proof.
  intros Hk Hn. pose proof (Hk _ _ Hn) as Hname. split.
  - intros Hrun t'. rewrite (resumeTimer_paused _ _ _ Hn Hrun). simpl.
    by rewrite Hname.
  - intros w1. subst w1. destruct (running t) eqn:Hrun.
    + rewrite (pauseTimer_running _ _ _ Hn Hrun). simpl.
      erewrite resumeTimer_paused;
        [|simpl; rewrite Hname; apply lookup_insert_eq|done].
      simpl. eexists. split; [done|]. rewrite Hname, lookup_insert_eq. done.
    + rewrite (pauseTimer_paused _ _ _ Hn Hrun). simpl.
      erewrite resumeTimer_paused; [|exact Hn|done].
      simpl. eexists. split; [done|]. rewrite Hname, lookup_insert_eq. done.
Qed.

(** C7. Toggling an existing timer is pausing it when it runs and resuming
    it when it does not: same outcome and same plugin object afterwards.
    The call always returns a record, after an info line and never the
    warning of the branch that does nothing. *)
Theorem toggleTimer_dispatch (w : plugin) (n : string) (t : timer) :
  state w !! n = Some t ->
  _toggleTimer n w = (if running t then _pauseTimer n w else _resumeTimer n w)
  /\ exists t' m,
       (_toggleTimer n w).1 = Returned (Some t')
       /\ running t' = negb (running t)
       /\ logged (_toggleTimer n w).2 = logged w ++ [(info, m)].
Proof.
  intros Hn. split; [by apply toggleTimer_found|].
  rewrite (toggleTimer_found _ _ _ Hn). destruct (running t) eqn:Hrun.
  - rewrite (pauseTimer_running _ _ _ Hn Hrun). by eexists _, _.
  - rewrite (resumeTimer_paused _ _ _ Hn Hrun). by eexists _, _.
Qed.

(** ** The tick engine: unregistered types *)

(** X17. Over a store whose types keep clear of the inherited keys the
    model leaves out, a running timer whose type the lookup does not find
    makes the tick log a warning and nothing more: the tick returns, the
    timer's record stays in the store as it was, and every running timer
    with one of the two rules is replaced by what its rule returned during
    this scan. *)
Theorem tick_skips_unregistered_type (w : plugin) (u : string) (t : timer) :
  keyed_by_name (state w) ->
  plain_types (state w) ->
  state w !! u = Some t ->
  running t = true ->
  timerFunctions_at (type t) = None ->
  let w' := run Tick w in
  (_handleTimers w).1 = Returned tt
  /\ state w' !! u = Some t
  /\ (warn, unrecognized_type (name t) (type t)) ∈ logged w'
  /\ (forall k tk f,
        state w !! k = Some tk -> running tk = true ->
        timerFunctions (type tk) = Some f ->
        exists w1 t',
          (clock w <= clock w1 < clock w')%nat
          /\ (f tk w1).1 = Returned t'
          /\ state w' !! k = Some t').
Proof.
  intros Hk _ Hu Hrun Hty w'. subst w'. simpl. rewrite handleTimers_scan. simpl.
  split; [done|]. split; [|split].
  - rewrite scan_frame; [done|].
    intros t2 Ht2 Hn2. apply (Object_values_snapshot _ _ Hk) in Ht2.
    rewrite Hn2, Hu in Ht2. injection Ht2 as <-.
    unfold advances. rewrite Hrun, Hty. done.
  - apply scan_warns; [|done|done]. apply elem_of_Object_values. eauto.
  - intros k tk f Hktk Hrunk Hf.
    destruct (scan_update (Object_values (state w)) w tk f) as (w1 & t' & H);
      [by apply Object_values_NoDup|apply elem_of_Object_values; eauto|done|done|].
    rewrite (Hk _ _ Hktk) in H. eauto.
Qed.

(** ** Creation, and what stays fixed afterwards *)


Lemma scan_is_Some l w n :
  is_Some (state w !! n) -> is_Some (state (scan l w) !! n).
Proof.
  revert w. induction l as [|t l IH]; intros w Hn; [done|].
  destruct (body_cases t w) as (w1 & Hb & _ & Hno & Hyes).
  rewrite (scan_step _ _ _ _ Hb). apply IH.
  destruct (advances t).
  - destruct Hyes as (f & t' & _ & _ & _ & -> & _); [done|].
    rewrite lookup_insert_is_Some. destruct (decide (name t = n)); auto.
  - destruct Hno as (-> & _); done.
Qed.

(** Only [_deleteTimer] takes a name out of the store. *)
Lemma run_is_Some o w n :
  (forall m, o <> DeleteTimer m) ->
  is_Some (state w !! n) -> is_Some (state (run o w) !! n).
Proof.
  intros Ho Hn.
  assert (Hins : forall k v, is_Some (<[k := v]> (state w) !! n)).
  { intros k v. rewrite lookup_insert_is_Some. destruct (decide (k = n)); auto. }
  destruct o as [m ty d|m|m pause|m|m|m|]; simpl.
  - destruct (createTimer_cases m ty d w)
      as [(e & _ & -> & _)|(f & dur & reg & _ & _ & _ & _ & _ & -> & _)]; auto.
  - by destruct (Ho m).
  - destruct (state w !! m) as [tm|] eqn:Hm.
    + destruct (timerResetFunctions_at (type tm)) as [f|] eqn:Hf.
      * rewrite (resetTimer_found _ pause _ _ _ Hm Hf); simpl; auto.
      * rewrite (resetTimer_untyped _ pause _ _ Hm Hf); simpl; auto.
    + unfold _resetTimer. rewrite withTimer_missing; simpl; auto.
  - destruct (state w !! m) as [tm|] eqn:Hm.
    + destruct (running tm) eqn:Hrun.
      * rewrite (pauseTimer_running _ _ _ Hm Hrun); simpl; auto.
      * rewrite (pauseTimer_paused _ _ _ Hm Hrun); simpl; auto.
    + unfold _pauseTimer. rewrite withTimer_missing; simpl; auto.
  - destruct (state w !! m) as [tm|] eqn:Hm.
    + destruct (running tm) eqn:Hrun.
      * rewrite (resumeTimer_running _ _ _ Hm Hrun); simpl; auto.
      * rewrite (resumeTimer_paused _ _ _ Hm Hrun); simpl; auto.
    + unfold _resumeTimer. rewrite withTimer_missing; simpl; auto.
  - destruct (state w !! m) as [tm|] eqn:Hm.
    + rewrite (toggleTimer_found _ _ _ Hm). destruct (running tm) eqn:Hrun.
      * rewrite (pauseTimer_running _ _ _ Hm Hrun); simpl; auto.
      * rewrite (resumeTimer_paused _ _ _ Hm Hrun); simpl; auto.
    + unfold _toggleTimer. rewrite withTimer_missing; simpl; auto.
  - rewrite handleTimers_scan. by apply scan_is_Some.
Qed.



(** * Further properties of the registry and the tick engine *)

(** ** Missing names, failures, deletion *)

Lemma resetTimer_untyped_full n pause w t :
  state w !! n = Some t -> timerResetFunctions_at (type t) = None ->
  _resetTimer n pause w =
    (Thrown (TypeError "timerResetFunctions[timer.type] is not a function"),
     Plugin (state w) (timers w) (emitted w)
            (logged w ++ [(info, resetting (name t))]) (clock w)).
Proof.
  intros H Hf. unfold _resetTimer. rewrite (withTimer_found _ _ _ _ H).
  unfold bind. simpl. by rewrite Hf.
Qed.

Lemma createTimer_succeeds n ty d w registered dur f :
  timers w = Some registered -> registered !! n = None ->
  duration_of d = Some dur -> timerResetFunctions_at ty = Some f ->
  (_createTimer n ty d w).1 = Returned (f (Timer n ty false false None None dur))
  /\ state (_createTimer n ty d w).2 =
       <[n := f (Timer n ty false false None None dur)]> (state w)
  /\ emitted (_createTimer n ty d w).2 =
       emitted w ++ [timerCreated (f (Timer n ty false false None None dur))].
Proof.
  intros Hreg Hn Hd Hf.
  destruct (createTimer_cases n ty d w)
    as [(e & He & _)|(f' & dur' & reg' & Hf' & _ & _ & Hd' & H)].
  - exfalso. revert He. unfold _createTimer, bind, get_timers. simpl.
    rewrite Hreg, Hn.
    destruct (resolve_duration_spec d w) as (w0 & _ & _ & _ & Hres).
    rewrite Hd in Hres. rewrite Hres.
    destruct (proj2 (tables_at_agree ty)) as [g Hg]; [eauto|].
    rewrite Hg. simpl. rewrite Hf. simpl. discriminate.
  - assert (f' = f) as -> by congruence.
    assert (dur' = dur) as -> by congruence. exact H.
Qed.

(** X1. A command that names a timer the store does not hold, by a name
    that is not one of the keys every object inherits, throws not-found
    for that name and leaves the plugin object exactly as it was: no write,
    no notification, no log line, no clock reading. *)
Theorem missing_timer_not_found (o : op) (n : string) (w : plugin) :
  target o = Some n ->
  plain_name n ->
  state w !! n = None ->
  run_error o w = Some (not_found n) /\ run o w = w.
Proof.
  intros Ht _ Hn.
  destruct o as [m ty d|m|m pause|m|m|m|]; simpl in Ht; try discriminate;
    injection Ht as ->; simpl;
    unfold _deleteTimer, _resetTimer, _pauseTimer, _resumeTimer, _toggleTimer, thrown;
    by rewrite withTimer_missing.
Qed.



(** X4. For a name that is not an inherited key and a type that is
    [constructor] or no inherited key, [_createTimer] returns exactly when
    [this.timers] is an object that does not hold the name, the duration is
    a number or a string the parser accepts, and the type is incrementing,
    decrementing or [constructor]. *)
Theorem createTimer_returns_iff (n ty : string) (d : js_value) (w : plugin) :
  plain_name n ->
  plain_type ty ->
  run_error (CreateTimer n ty d) w = None <->
  (exists registered, timers w = Some registered /\ registered !! n = None)
  /\ is_Some (duration_of d)
  /\ (ty = "incrementing" \/ ty = "decrementing" \/ ty = "constructor").
Proof.
  intros _ _. simpl. unfold thrown. split.
  - destruct (createTimer_cases n ty d w)
      as [(e & -> & _)|(f & dur & reg & Hf & Hreg & Hn & Hd & _)]; [discriminate|].
    intros _. split; [eauto|]. split; [eauto|].
    destruct (timerResetFunctions_at_Some _ _ Hf)
      as [[[-> _]|[-> _]]%timerResetFunctions_Some|[-> _]]; auto.
  - intros ((reg & Hreg & Hn) & [dur Hd] & Hty).
    assert (exists f, timerResetFunctions_at ty = Some f) as [f Hf].
    { destruct Hty as [-> | [-> | ->]]; by eexists. }
    by destruct (createTimer_succeeds n ty d w reg dur f Hreg Hn Hd Hf) as (-> & _).
Qed.


(** ** Repeating a command *)

(** X6. Pausing a timer a second time, or resuming it a second time, only
    warns: the call returns nothing, and the store and the notifications
    stay as the first call left them. *)
Theorem repeated_pause_or_resume (w : plugin) (n : string) (t : timer) :
  keyed_by_name (state w) ->
  state w !! n = Some t ->
  (let w1 := run (PauseTimer n) w in
   (_pauseTimer n w1).1 = Returned None
   /\ state (run (PauseTimer n) w1) = state w1
   /\ emitted (run (PauseTimer n) w1) = emitted w1
   /\ logged (run (PauseTimer n) w1) = logged w1 ++ [(warn, already_paused n)])
  /\ (let w1 := run (ResumeTimer n) w in
      (_resumeTimer n w1).1 = Returned None
      /\ state (run (ResumeTimer n) w1) = state w1
      /\ emitted (run (ResumeTimer n) w1) = emitted w1
      /\ logged (run (ResumeTimer n) w1) = logged w1 ++ [(warn, already_running n)]).
Proof.
  intros Hk Hn. pose proof (Hk _ _ Hn) as Hname. split; intros w1; subst w1; simpl.
  - destruct (running t) eqn:Hrun.
    + rewrite (pauseTimer_running _ _ _ Hn Hrun). simpl.
      erewrite pauseTimer_paused;
        [|simpl; rewrite Hname; apply lookup_insert_eq|done].
      simpl. by rewrite Hname.
    + rewrite (pauseTimer_paused _ _ _ Hn Hrun). simpl.
      erewrite pauseTimer_paused; [|exact Hn|done]. simpl. by rewrite Hname.
  - destruct (running t) eqn:Hrun.
    + rewrite (resumeTimer_running _ _ _ Hn Hrun). simpl.
      erewrite resumeTimer_running; [|exact Hn|done]. simpl. by rewrite Hname.
    + rewrite (resumeTimer_paused _ _ _ Hn Hrun). simpl.
      erewrite resumeTimer_running;
        [|simpl; rewrite Hname; apply lookup_insert_eq|done].
      simpl. by rewrite Hname.
Qed.

(** X7. Toggling a timer twice brings back its [running] flag and leaves
    its value, [elapsed] flag, type and duration alone; the one thing that
    moves is the timestamp, which is the clock reading of the resume among
    the two. *)
Theorem toggle_twice (w : plugin) (n : string) (t : timer) :
  keyed_by_name (state w) ->
  state w !! n = Some t ->
  let w2 := run (ToggleTimer n) (run (ToggleTimer n) w) in
  state w2 =
    <[n := Timer n (type t) (running t) (elapsed t)
                 (Some (Date_getTime (clock w))) (value t) (duration t)]> (state w)
  /\ length (new_events w w2) = 2%nat
  /\ clock w2 = S (clock w).
Proof.
  intros Hk Hn w2. pose proof (Hk _ _ Hn) as Hname. subst w2. simpl.
  rewrite (toggleTimer_found _ _ _ Hn). destruct (running t) eqn:Hrun.
  - rewrite (pauseTimer_running _ _ _ Hn Hrun). simpl.
    erewrite toggleTimer_found; [|simpl; rewrite Hname; apply lookup_insert_eq].
    simpl. erewrite resumeTimer_paused;
      [|simpl; rewrite Hname; apply lookup_insert_eq|done].
    simpl. rewrite Hname, insert_insert_eq.
    unfold resumed, paused. simpl. rewrite ?Hname. split; [done|]. split; [|done].
    erewrite new_events_app; [|simpl; rewrite <- app_assoc; reflexivity]. done.
  - rewrite (resumeTimer_paused _ _ _ Hn Hrun). simpl.
    erewrite toggleTimer_found; [|simpl; rewrite Hname; apply lookup_insert_eq].
    simpl. erewrite pauseTimer_running;
      [|simpl; rewrite Hname; apply lookup_insert_eq|done].
    simpl. rewrite Hname, insert_insert_eq.
    unfold resumed, paused. simpl. rewrite ?Hname. split; [done|]. split; [|done].
    erewrite new_events_app; [|simpl; rewrite <- app_assoc; reflexivity]. done.
Qed.

Lemma reset_record_twice f pause t :
  timerResetFunctions_at (type t) = Some f ->
  timerResetFunctions_at (type (reset_record f pause t)) = Some f
  /\ reset_record f pause (reset_record f pause t) = reset_record f pause t.
Proof.
  intros Hf.
  destruct (timerResetFunctions_at_Some _ _ Hf)
    as [[[Hty ->]|[Hty ->]]%timerResetFunctions_Some|[Hty ->]];
    unfold reset_record, Object_call; simpl; rewrite Hty; done.
Qed.

(** X8. Resetting a timer twice with the same [pause] is resetting it
    once: the second call ends as the first did and leaves the store as
    the first left it. *)
Theorem reset_twice (w : plugin) (n : string) (pause : option bool) :
  keyed_by_name (state w) ->
  let w1 := run (ResetTimer n pause) w in
  (_resetTimer n pause w1).1 = (_resetTimer n pause w).1
  /\ state (run (ResetTimer n pause) w1) = state w1.
Proof.
  intros Hk w1. subst w1. simpl.
  destruct (state w !! n) as [t|] eqn:Hn.
  - pose proof (Hk _ _ Hn) as Hname.
    destruct (timerResetFunctions_at (type t)) as [f|] eqn:Hf.
    + destruct (reset_record_twice f pause t Hf) as (Hf' & Htwice).
      destruct (reset_at_frame _ _ t Hf) as (Hnf & _).
      rewrite (resetTimer_found _ pause _ _ _ Hn Hf). simpl.
      rewrite Hnf, Hname.
      erewrite resetTimer_found; [|simpl; apply lookup_insert_eq|exact Hf'].
      simpl. rewrite Htwice. simpl.
      destruct (reset_at_frame _ _ (reset_record f pause t) Hf) as (-> & _).
      simpl. rewrite Hnf, Hname, insert_insert_eq. done.
    + rewrite (resetTimer_untyped_full _ pause _ _ Hn Hf). simpl.
      by erewrite resetTimer_untyped_full; [|exact Hn|exact Hf].
  - unfold _resetTimer. rewrite (withTimer_missing n _ w) by done. simpl.
    rewrite (withTimer_missing n _ w) by done. done.
Qed.

(** ** What the operations keep *)

(** X9. In a store whose types keep clear of the inherited keys the model
    leaves out, the tick, and reset, pause, resume and toggle under a name
    that is not an inherited key, never add a name to the store and never
    take one out. *)
Theorem updates_keep_names (o : op) (w : plugin) :
  keyed_by_name (state w) ->
  plain_types (state w) ->
  plain_op o ->
  updates_only o = true ->
  dom (state (run o w)) = dom (state w).
Proof.
  intros Hk _ _ Ho. apply set_eq. intros n. rewrite !elem_of_dom. split.
  - intros [t' Hn']. destruct (state w !! n) as [t|] eqn:Hn; [eauto|].
    destruct (run_record_new o w n t' Hk Hn Hn') as (ty & d & f & dur & -> & _).
    discriminate.
  - apply run_is_Some. by intros m ->.
Qed.

(** X10. Start from a registry whose records sit under their own names
    and have one of the two types, and run commands whose names and types
    are not inherited keys, and ticks: every record still sits under its
    own name and has one of the two types. *)
Theorem registry_invariants (history : list op) (w0 : plugin) :
  keyed_by_name (state w0) ->
  registered_types (state w0) ->
  Forall plain_op history ->
  forall k t,
    state (run_all history w0) !! k = Some t ->
    name t = k /\ (type t = "incrementing" \/ type t = "decrementing").
Proof.
  intros Hk Hreg Hplain k t Hkt.
  split; [by apply (run_all_keyed history w0 Hk)|].
  destruct (run_all_registered history w0 Hk Hreg Hplain _ _ Hkt) as [f Hf].
  destruct (timerResetFunctions_Some _ _ Hf) as [[? _]|[? _]]; auto.
Qed.

(** ** What a tick does besides updating records *)

Lemma scan_only_elapsed l w :
  exists new, emitted (scan l w) = emitted w ++ new
              /\ Forall (fun e => is_timerElapsed e = true) new.
Proof.
  revert w. induction l as [|t l IH]; intros w.
  { exists []. by rewrite app_nil_r. }
  destruct (body_cases t w) as (w1 & Hb & _ & Hno & Hyes).
  rewrite (scan_step _ _ _ _ Hb). destruct (IH w1) as (new' & -> & Hall).
  destruct (advances t).
  - destruct Hyes as (f & t' & _ & _ & _ & _ & -> & _); [done|].
    eexists. rewrite <- app_assoc. split; [done|].
    apply Forall_app. split; [|done]. destruct (_ && _); repeat constructor.
  - destruct Hno as (_ & -> & _); [done|]. eauto.
Qed.

Lemma scan_quiet l w :
  (forall t, t ∈ l -> running t = true -> is_Some (timerFunctions_at (type t))) ->
  logged (scan l w) = logged w.
Proof.
  revert w. induction l as [|t l IH]; intros w Hl; [done|].
  assert (exists w1, handleTimers_body t w = (Returned tt, w1) /\ logged w1 = logged w)
    as (w1 & Hb & <-).
  { destruct (running t) eqn:Hrun.
    - destruct (Hl t) as [f Hf]; [by left|done|].
      destruct (body_update t w f Hrun Hf) as (t' & c & _ & _ & _ & ->). eauto.
    - rewrite (body_not_running t w Hrun). eauto. }
  rewrite (scan_step _ _ _ _ Hb). apply IH. intros t2 Ht2. apply Hl. by right.
Qed.

(** X11. Over a store whose types keep clear of the inherited keys the
    model leaves out, a tick does not throw and sends no notification other
    than [timerElapsed]; when every record has one of the two types it
    writes nothing to the log. *)
Theorem tick_is_quiet (w : plugin) :
  plain_types (state w) ->
  run_error Tick w = None
  /\ Forall (fun e => is_timerElapsed e = true) (new_events w (run Tick w))
  /\ (registered_types (state w) -> logged (run Tick w) = logged w).
Proof.
  intros _. simpl. unfold thrown. rewrite handleTimers_scan. simpl.
  split; [done|]. split.
  - destruct (scan_only_elapsed (Object_values (state w)) w) as (new & Hnew & Hall).
    by rewrite (new_events_app _ _ _ Hnew).
  - intros Hreg. apply scan_quiet. intros t (k & Hk)%elem_of_Object_values _.
    apply tables_at_agree. destruct (Hreg _ _ Hk) as [f Hf].
    exists f. by apply timerResetFunctions_at_own.
Qed.

(** Every notification of a scan carries the record the scan left under
    that name. *)
Lemma scan_events_stored l w :
  NoDup (name <$> l) ->
  exists new, emitted (scan l w) = emitted w ++ new
              /\ Forall (event_matches_store (state (scan l w))) new.
Proof.
  revert w. induction l as [|t l IH]; intros w Hnd.
  { exists []. by rewrite app_nil_r. }
  rewrite fmap_cons in Hnd. apply NoDup_cons in Hnd as [Hfresh Hnd].
  destruct (body_cases t w) as (w1 & Hb & _ & Hno & Hyes).
  rewrite (scan_step _ _ _ _ Hb). destruct (IH w1 Hnd) as (new' & Hnew' & Hall).
  rewrite Hnew'. destruct (advances t).
  - destruct Hyes as (f & t' & _ & _ & Hn' & Hst & -> & _); [done|].
    eexists. rewrite <- app_assoc. split; [done|].
    apply Forall_app. split; [|done].
    destruct (_ && _); [|constructor]. repeat constructor. simpl.
    rewrite Hn', scan_frame; [rewrite Hst; apply lookup_insert_eq|].
    intros t2 Ht2 Hn2. exfalso. apply Hfresh. apply list_elem_of_fmap. eauto.
  - destruct Hno as (_ & -> & _); [done|]. eauto.
Qed.

(** X12. The payload of every notification is the state of the store
    after the operation: the record it carries is the one now stored under
    its name, and a deleted name is gone.  A command sends at most one
    notification. *)
Theorem notifications_match_store (o : op) (w : plugin) :
  keyed_by_name (state w) ->
  Forall (event_matches_store (state (run o w))) (new_events w (run o w))
  /\ (o <> Tick -> (length (new_events w (run o w)) <= 1)%nat).
Proof.
  intros Hk.
  assert (Hnone : forall w', emitted w' = emitted w ->
            Forall (event_matches_store (state w')) (new_events w w')
            /\ (o <> Tick -> (length (new_events w w') <= 1)%nat)).
  { intros w' Hem. rewrite (new_events_app w w' []) by by rewrite app_nil_r.
    split; [constructor|simpl; lia]. }
  assert (Hone : forall w' e, emitted w' = emitted w ++ [e] ->
            event_matches_store (state w') e ->
            Forall (event_matches_store (state w')) (new_events w w')
            /\ (o <> Tick -> (length (new_events w w') <= 1)%nat)).
  { intros w' e Hem He. rewrite (new_events_app w w' [e]) by done.
    split; [by repeat constructor|simpl; lia]. }
  destruct o as [m ty d|m|m pause|m|m|m|]; simpl.
  - destruct (createTimer_cases m ty d w)
      as [(e' & _ & _ & Hem)|(f & dur & reg & Hf & _ & _ & _ & _ & Hst & Hem)].
    + by apply Hnone.
    + eapply Hone; [exact Hem|]. simpl. rewrite Hst.
      destruct (reset_at_frame _ _ (Timer m ty false false None None dur) Hf)
        as (-> & _). apply lookup_insert_eq.
  - destruct (state w !! m) as [tm|] eqn:Hm.
    + rewrite (deleteTimer_found _ _ _ Hm). eapply Hone; [done|]. simpl.
      rewrite (Hk _ _ Hm). apply lookup_delete_eq.
    + unfold _deleteTimer. rewrite withTimer_missing by done. by apply Hnone.
  - destruct (state w !! m) as [tm|] eqn:Hm.
    + destruct (timerResetFunctions_at (type tm)) as [f|] eqn:Hf.
      * rewrite (resetTimer_found _ pause _ _ _ Hm Hf). eapply Hone; [done|].
        simpl. apply lookup_insert_eq.
      * rewrite (resetTimer_untyped_full _ pause _ _ Hm Hf). by apply Hnone.
    + unfold _resetTimer. rewrite withTimer_missing by done. by apply Hnone.
  - destruct (state w !! m) as [tm|] eqn:Hm.
    + destruct (running tm) eqn:Hrun.
      * rewrite (pauseTimer_running _ _ _ Hm Hrun). eapply Hone; [done|].
        simpl. apply lookup_insert_eq.
      * rewrite (pauseTimer_paused _ _ _ Hm Hrun). by apply Hnone.
    + unfold _pauseTimer. rewrite withTimer_missing by done. by apply Hnone.
  - destruct (state w !! m) as [tm|] eqn:Hm.
    + destruct (running tm) eqn:Hrun.
      * rewrite (resumeTimer_running _ _ _ Hm Hrun). by apply Hnone.
      * rewrite (resumeTimer_paused _ _ _ Hm Hrun). eapply Hone; [done|].
        simpl. apply lookup_insert_eq.
    + unfold _resumeTimer. rewrite withTimer_missing by done. by apply Hnone.
  - destruct (state w !! m) as [tm|] eqn:Hm.
    + rewrite (toggleTimer_found _ _ _ Hm). destruct (running tm) eqn:Hrun.
      * rewrite (pauseTimer_running _ _ _ Hm Hrun). eapply Hone; [done|].
        simpl. apply lookup_insert_eq.
      * rewrite (resumeTimer_paused _ _ _ Hm Hrun). eapply Hone; [done|].
        simpl. apply lookup_insert_eq.
    + unfold _toggleTimer. rewrite withTimer_missing by done. by apply Hnone.
  - rewrite handleTimers_scan. simpl. split; [|done].
    destruct (scan_events_stored (Object_values (state w)) w) as (new & Hnew & Hall);
      [by apply Object_values_NoDup|].
    by rewrite (new_events_app _ _ _ Hnew).
Qed.

(** ** How values move over many ticks *)

Lemma tick_advances w n t f :
  keyed_by_name (state w) -> state w !! n = Some t ->
  running t = true -> timerFunctions (type t) = Some f ->
  exists w1 t',
    (clock w <= clock w1 < clock (run Tick w))%nat
    /\ (f t w1).1 = Returned t'
    /\ state (run Tick w) !! n = Some t'.
Proof.
  intros Hk Hn Hrun Hf. simpl. rewrite handleTimers_scan. simpl.
  destruct (scan_update (Object_values (state w)) w t f) as (w1 & t' & H);
    [by apply Object_values_NoDup|apply elem_of_Object_values; eauto|done|done|].
  rewrite (Hk _ _ Hn) in H. eauto.
Qed.

Lemma ticks_clock k w : (clock w <= clock (Nat.iter k (run Tick) w))%nat.
Proof.
  induction k as [|k IH]; [done|].
  change (Nat.iter (S k) (run Tick) w) with (run Tick (Nat.iter k (run Tick) w)).
  simpl. rewrite handleTimers_scan. simpl.
  pose proof (scan_clock (Object_values (state (Nat.iter k (run Tick) w)))
                         (Nat.iter k (run Tick) w)). lia.
Qed.

(** The rules on a record whose timestamp and value are numbers. *)
Lemma rule_numeric f t w1 ts v :
  timerFunctions (type t) = Some f ->
  timestamp t = Some ts -> value t = Some (Num v) ->
  let now := Date_getTime (clock w1) in
  let v' := if String.eqb (type t) "incrementing"
            then v + (now - ts) else v - (now - ts) in
  (f t w1).1 =
    Returned (Timer (name t) (type t) (running t)
                    (if String.eqb (type t) "incrementing"
                     then num_gt (Num v') (duration t) else num_lt (Num v') (Num 0))
                    (Some now) (Some (Num v')) (duration t)).
Proof.
  intros Hf Hts Hv now v'. subst now v'.
  destruct (timerFunctions_Some _ _ Hf) as [[Hty ->]|[Hty ->]];
    unfold incrementing, decrementing, bind, getTime; simpl;
    rewrite Hts, Hv, Hty; reflexivity.
Qed.


(** X13. Ticks neither lose nor double-count time, as long as the numbers
    stay where doubles are exact: the clock readings, the timestamp and the
    value are at most 2^51 in size, and no type in the store is an
    inherited key the model leaves out.  For a running timer
    with a numeric timestamp and value, after any number of ticks the value
    has moved by exactly the distance between the timestamp it now carries
    and the one it started with: up for an incrementing timer, down for a
    decrementing one.  After the first tick that timestamp is a clock
    reading taken during the ticks, and [elapsed] is the threshold test on
    the value. *)
Theorem ticks_account_for_time
    (w : plugin) (n : string) (t : timer) (ts v : Z) (k : nat) :
  keyed_by_name (state w) ->
  plain_types (state w) ->
  (forall i, small_integer (Date_getTime i)) ->
  small_integer ts ->
  small_integer v ->
  state w !! n = Some t ->
  running t = true ->
  is_Some (timerFunctions (type t)) ->
  timestamp t = Some ts ->
  value t = Some (Num v) ->
  let w' := Nat.iter k (run Tick) w in
  exists t' ts',
    state w' !! n = Some t'
    /\ timestamp t' = Some ts'
    /\ value t' = Some (Num (if String.eqb (type t) "incrementing"
                             then v + (ts' - ts) else v - (ts' - ts)))
    /\ running t' = true /\ type t' = type t /\ duration t' = duration t
    /\ ((0 < k)%nat ->
        (exists i, (clock w <= i < clock w')%nat /\ ts' = Date_getTime i)
        /\ elapsed t' =
             if String.eqb (type t) "incrementing"
             then num_gt (to_number (value t')) (duration t)
             else num_lt (to_number (value t')) (Num 0)).
Proof.
  intros Hk _ _ _ _ Hn Hrun [f Hf] Hts Hv w'. subst w'.
  induction k as [|k IH].
  - exists t, ts. simpl. rewrite Hv. repeat split; try done; try lia.
    do 2 f_equal. destruct (_ =? _)%string; lia.
  - destruct IH as (tk & tsk & Hnk & Htsk & Hvk & Hrunk & Htyk & Hdurk & _).
    change (Nat.iter (S k) (run Tick) w) with (run Tick (Nat.iter k (run Tick) w)).
    set (wk := Nat.iter k (run Tick) w) in *.
    assert (Hfk : timerFunctions (type tk) = Some f) by by rewrite Htyk.
    destruct (tick_advances wk n tk f) as (w1 & t' & Hc & Hft & Hn');
      [by apply ticks_keyed|done|done|done|].
    rewrite (rule_numeric f tk w1 tsk _ Hfk Htsk Hvk) in Hft.
    injection Hft as <-.
    eexists _, (Date_getTime (clock w1)). split; [exact Hn'|]. simpl.
    rewrite Htyk, Hdurk. split; [done|]. split.
    { do 2 f_equal. destruct (_ =? _)%string; lia. }
    do 3 (split; [done|]). intros _. split; [|done].
    exists (clock w1). split; [|done].
    pose proof (ticks_clock k w) as Hmono. fold wk in Hmono. simpl in Hc. lia.
Qed.


Lemma ticks_paused k w n t :
  keyed_by_name (state w) -> state w !! n = Some t -> running t = false ->
  state (Nat.iter k (run Tick) w) !! n = Some t.
Proof.
  intros Hk Hn Hrun. induction k as [|k IH]; [done|].
  change (Nat.iter (S k) (run Tick) w) with (run Tick (Nat.iter k (run Tick) w)).
  apply tick_paused; [by apply ticks_keyed|done|done].
Qed.

(** X15. Time spent paused is not counted, as long as the numbers stay
    where doubles are exact (clock readings and value at most 2^51 in size)
    and no type in the store is an inherited key the model leaves out.
    Pause a timer, let any number
    of ticks pass, resume it and tick once: the value differs from the one
    before the pause by the time between the resume and that tick, and by
    nothing else. *)
Theorem paused_time_not_counted
    (w : plugin) (n : string) (t : timer) (v : Z) (k : nat) :
  keyed_by_name (state w) ->
  plain_types (state w) ->
  (forall i, small_integer (Date_getTime i)) ->
  small_integer v ->
  state w !! n = Some t ->
  is_Some (timerFunctions (type t)) ->
  value t = Some (Num v) ->
  let w2 := Nat.iter k (run Tick) (run (PauseTimer n) w) in
  let w4 := run Tick (run (ResumeTimer n) w2) in
  let resumed_at := Date_getTime (clock w2) in
  exists t4 i,
    (clock w2 < i < clock w4)%nat
    /\ state w4 !! n = Some t4
    /\ timestamp t4 = Some (Date_getTime i)
    /\ value t4 = Some (Num (if String.eqb (type t) "incrementing"
                             then v + (Date_getTime i - resumed_at)
                             else v - (Date_getTime i - resumed_at))).
Proof.
  intros Hk _ _ _ Hn [f Hf] Hv w2 w4 resumed_at.
  pose proof (Hk _ _ Hn) as Hname.
  assert (exists t1, state (run (PauseTimer n) w) !! n = Some t1
            /\ running t1 = false /\ value t1 = Some (Num v) /\ type t1 = type t)
    as (t1 & Hn1 & Hrun1 & Hv1 & Hty1).
  { simpl. destruct (running t) eqn:Hrun.
    - rewrite (pauseTimer_running _ _ _ Hn Hrun). simpl.
      exists (paused t). rewrite Hname, lookup_insert_eq. done.
    - rewrite (pauseTimer_paused _ _ _ Hn Hrun). simpl. eauto. }
  assert (Hk1 : keyed_by_name (state (run (PauseTimer n) w))) by by apply run_keyed.
  assert (Hn2 : state w2 !! n = Some t1) by by apply ticks_paused.
  assert (Hk2 : keyed_by_name (state w2)) by by apply ticks_keyed.
  pose proof (Hk2 _ _ Hn2) as Hname1. simpl in Hname1.
  set (w3 := run (ResumeTimer n) w2) in *.
  assert (Hk3 : keyed_by_name (state w3)) by by apply run_keyed.
  assert (state w3 !! n = Some (resumed resumed_at t1) /\ clock w3 = S (clock w2))
    as [Hn3 Hc3].
  { subst w3. simpl. rewrite (resumeTimer_paused _ _ _ Hn2 Hrun1). simpl.
    rewrite Hname1, lookup_insert_eq. done. }
  assert (Hf3 : timerFunctions (type (resumed resumed_at t1)) = Some f)
    by (simpl; by rewrite Hty1).
  destruct (tick_advances w3 n _ f Hk3 Hn3 eq_refl Hf3) as (w' & t4 & Hc & Hft & Hn4).
  rewrite (rule_numeric f _ w' resumed_at v Hf3 eq_refl Hv1) in Hft.
  injection Hft as <-.
  eexists _, (clock w'). split; [subst w4; lia|]. split; [exact Hn4|].
  simpl. by rewrite Hty1.
Qed.

(** ** Notifications over many ticks *)

Lemma tick_edge w :
  keyed_by_name (state w) ->
  exists new,
    emitted (run Tick w) = emitted w ++ new /\
    forall n, timerElapsed_count n new =
              if rising_edge (state w) (state (run Tick w)) n then 1%nat else 0%nat.
Proof.
  intros Hk. simpl. rewrite handleTimers_scan. simpl.
  apply scan_edge; [by apply Object_values_NoDup|].
  intros t Ht. by apply Object_values_snapshot.
Qed.

(** X16. With a clock that never goes back, a timer elapses once.  For a
    running timer that is not elapsed, with a numeric value and a timestamp
    that is not in the future, the [timerElapsed] notifications sent for it
    over any number of ticks are one if its [elapsed] flag is set at the
    end and none if it is not. *)
Theorem elapses_once
    (w : plugin) (n : string) (t : timer) (ts v : Z) (k : nat) :
  (forall i j, (i <= j)%nat -> Date_getTime i <= Date_getTime j) ->
  keyed_by_name (state w) ->
  state w !! n = Some t ->
  running t = true ->
  is_Some (timerFunctions (type t)) ->
  timestamp t = Some ts ->
  ts <= Date_getTime (clock w) ->
  value t = Some (Num v) ->
  elapsed t = false ->
  let w' := Nat.iter k (run Tick) w in
  exists t',
    state w' !! n = Some t'
    /\ timerElapsed_count n (new_events w w') = if elapsed t' then 1%nat else 0%nat.
Proof.
  intros Hmono Hk Hn Hrun [f Hf] Hts Hpast Hv Hel w'. subst w'.
  pose (thr := fun x : Z =>
    if String.eqb (type t) "incrementing"
    then num_gt (Num (v + x)) (duration t) else num_lt (Num (v - x)) (Num 0)).
  assert (Hthr : forall x y, x <= y -> thr x = true -> thr y = true).
  { intros x y Hxy. unfold thr.
    destruct (String.eqb (type t) "incrementing"); simpl.
    - destruct (duration t); [|done]. rewrite !bool_decide_eq_true. lia.
    - rewrite !bool_decide_eq_true. lia. }
  assert (Hinv : exists tk tsk new,
    state (Nat.iter k (run Tick) w) !! n = Some tk
    /\ running tk = true /\ type tk = type t /\ duration tk = duration t
    /\ timestamp tk = Some tsk
    /\ tsk <= Date_getTime (clock (Nat.iter k (run Tick) w))
    /\ value tk = Some (Num (if String.eqb (type t) "incrementing"
                             then v + (tsk - ts) else v - (tsk - ts)))
    /\ (elapsed tk = true -> thr (tsk - ts) = true)
    /\ emitted (Nat.iter k (run Tick) w) = emitted w ++ new
    /\ timerElapsed_count n new = if elapsed tk then 1%nat else 0%nat).
  { induction k as [|k IH].
    - exists t, ts, []. simpl. rewrite Hv, Hel, app_nil_r.
      repeat split; try done.
      do 2 f_equal. destruct (_ =? _)%string; lia.
    - destruct IH as (tk & tsk & new & Hnk & Hrunk & Htyk & Hdurk & Htsk & Hpastk
                      & Hvk & Hthrk & Hemk & Hcountk).
      change (Nat.iter (S k) (run Tick) w) with (run Tick (Nat.iter k (run Tick) w)).
      set (wk := Nat.iter k (run Tick) w) in *.
      assert (Hkk : keyed_by_name (state wk)) by by apply ticks_keyed.
      assert (Hfk : timerFunctions (type tk) = Some f) by by rewrite Htyk.
      destruct (tick_advances wk n tk f Hkk Hnk Hrunk Hfk) as (w1 & t' & Hc & Hft & Hn').
      set (now := Date_getTime (clock w1)) in *.
      pose proof (rule_numeric f tk w1 tsk _ Hfk Htsk Hvk) as Hrule.
      simpl in Hrule. fold now in Hrule. rewrite Hft in Hrule.
      injection Hrule as Ht'.
      assert (Hfields : running t' = true /\ type t' = type t
                /\ duration t' = duration t /\ timestamp t' = Some now
                /\ value t' = Some (Num (if String.eqb (type t) "incrementing"
                                         then v + (now - ts) else v - (now - ts)))
                /\ elapsed t' = thr (now - ts)).
      { rewrite Ht'. simpl. unfold thr. rewrite Htyk, Hdurk.
        do 4 (split; [done|]).
        destruct (type t =? "incrementing")%string.
        - replace (v + (tsk - ts) + (now - tsk)) with (v + (now - ts)) by lia. done.
        - replace (v - (tsk - ts) - (now - tsk)) with (v - (now - ts)) by lia. done. }
      destruct Hfields as (Hrun' & Hty' & Hdur' & Hts' & Hv' & Hel').
      clear Ht'.
      destruct (tick_edge wk Hkk) as (new' & Hem' & Hcount').
      specialize (Hcount' n). unfold rising_edge in Hcount'.
      rewrite Hnk, Hn' in Hcount'. simpl in Hcount'.
      assert (Hle : tsk <= now).
      { etrans; [exact Hpastk|]. apply Hmono. lia. }
      exists t', now, (new ++ new'). split; [exact Hn'|].
      do 4 (split; [done|]).
      split; [apply Hmono; lia|].
      split; [done|].
      split; [by rewrite Hel'|].
      split; [rewrite Hem', Hemk; by rewrite app_assoc|].
      rewrite timerElapsed_count_app, Hcountk, Hcount', Hel'.
      destruct (elapsed tk) eqn:Helk; simpl.
      + rewrite (Hthr (tsk - ts) (now - ts)); [done|lia|by apply Hthrk].
      + by destruct (thr (now - ts)). }
  destruct Hinv as (tk & tsk & new & Hnk & _ & _ & _ & _ & _ & _ & _ & Hem & Hcount).
  exists tk. split; [done|]. by rewrite (new_events_app _ _ _ Hem).
Qed.

End Timers.

(** * Concrete runs *)

Lemma fresh_keyed : keyed_by_name (state fresh).
Proof. apply map_Forall_empty. Defined.

Lemma w_paused_keyed : keyed_by_name (state w_paused).
Proof. apply map_Forall_insert_2; [reflexivity|apply map_Forall_empty]. Defined.

Lemma w_running_keyed : keyed_by_name (state w_running).
Proof.
  apply map_Forall_insert_2; [reflexivity|].
  apply map_Forall_insert_2; [reflexivity|apply map_Forall_empty].
Defined.

(** A bound on a concrete integer, by computation. *)
Ltac in_range :=
  unfold safe_integer, small_integer; vm_compute; split; discriminate.


(** Create, resume, tick: the tick takes the value past the 50 ms duration
    and announces it once. *)
Lemma timerElapsed_iff_rising_edge_witness :
  keyed_by_name (state fresh)
  /\ timerElapsed_count "t"
       (new_events
          (run_all clock0 parse0
             [CreateTimer "t" "incrementing" (js_number (Num 50)); ResumeTimer "t"] fresh)
          (run clock0 parse0 Tick
             (run_all clock0 parse0
                [CreateTimer "t" "incrementing" (js_number (Num 50)); ResumeTimer "t"]
                fresh)))
     = 1%nat.
Proof.
  split; [exact fresh_keyed|].
  eapply eq_trans.
  - exact (timerElapsed_iff_rising_edge clock0 parse0
             [CreateTimer "t" "incrementing" (js_number (Num 50)); ResumeTimer "t"]
             fresh "t" fresh_keyed).
  - vm_compute. reflexivity.
Defined.

(** C3 as stated fails: [_resetTimer] with [pause] false is not a resume,
    and it starts the paused timer. *)
Lemma reset_without_pause_sets_running :
  ~ (forall o t',
       state w_paused !! "t" = Some t_paused ->
       running t_paused = false ->
       state (run clock0 parse0 o w_paused) !! "t" = Some t' ->
       running t' = true ->
       o = ResumeTimer "t" \/ o = ToggleTimer "t").
Proof.
  intros H.
  destruct (H (ResetTimer "t" (Some false))
              (Timer "t" "incrementing" true false (Some 900) (Some (Num 0)) (Num 5000)))
    as [?|?]; try discriminate; reflexivity.
Qed.

Lemma paused_timer_ignored_by_ticks_witness :
  keyed_by_name (state w_paused)
  /\ state w_paused !! "t" = Some t_paused
  /\ running t_paused = false
  /\ state (Nat.iter 3 (run clock0 parse0 Tick) w_paused) !! "t" = Some t_paused.
Proof.
  split; [exact w_paused_keyed|]. split; [vm_compute; reflexivity|].
  split; [reflexivity|].
  apply (paused_timer_ignored_by_ticks clock0 parse0 w_paused "t" t_paused);
    [exact w_paused_keyed|vm_compute; reflexivity|reflexivity].
Defined.

(** C4. Creating a timer under a name the registry already holds should
    fail as a duplicate and change nothing.  The duplicate check reads
    [this.timers], not the store: when the registry holds a timer named t
    and the plugin object has no [timers] property, creating t again fails
    on the lookup itself, with a [TypeError]; with a [timers] property that
    is some other object, the call goes through and replaces the record. *)
Theorem createTimer_existing_name :
  state w_paused !! "t" = Some t_paused
  /\ _createTimer clock0 parse0 "t" "incrementing" (js_number (Num 1000)) w_paused
     = (Thrown (TypeError "this.timers is undefined"), w_paused)
  /\ let w := Plugin (state w_paused) (Some ∅) [] [] 0 in
     let created :=
       Timer "t" "incrementing" false false None (Some (Num 0)) (Num 1000) in
     (_createTimer clock0 parse0 "t" "incrementing" (js_number (Num 1000)) w).1
       = Returned created
     /\ state (_createTimer clock0 parse0 "t" "incrementing" (js_number (Num 1000)) w).2
          !! "t" = Some created.
Proof.
  split; [vm_compute; reflexivity|]. split; [reflexivity|].
  split; [reflexivity|]. vm_compute. reflexivity.
Qed.

Lemma w_paused_registered : registered_types (state w_paused).
Proof.
  apply map_Forall_insert_2; [by eexists|apply map_Forall_empty].
Defined.

(** C5 as stated fails: the registry may hold a timer whose type has no
    reset rule, and resetting it throws. *)
Lemma reset_of_unknown_type_throws :
  ~ (forall n t pause,
       state w_running !! n = Some t ->
       exists t', (_resetTimer n (Some pause) w_running).1 = Returned t').
Proof.
  intros H. destruct (H "u" t_laps true) as [t' Ht']; [vm_compute; reflexivity|].
  vm_compute in Ht'. discriminate.
Qed.

Lemma resetTimer_record_witness :
  state w_paused !! "t" = Some t_paused
  /\ (type t_paused = "incrementing" \/ type t_paused = "decrementing")
  /\ (_resetTimer "t" (Some false) w_paused).1
     = Returned (Timer "t" "incrementing" true false (Some 900) (Some (Num 0)) (Num 5000)).
Proof.
  split; [vm_compute; reflexivity|]. split; [left; reflexivity|].
  apply (resetTimer_record w_paused "t" t_paused false);
    [vm_compute; reflexivity|left; reflexivity].
Defined.

Lemma resumeTimer_record_witness :
  keyed_by_name (state w_paused)
  /\ state w_paused !! "t" = Some t_paused
  /\ running t_paused = false
  /\ (_resumeTimer clock0 "t" w_paused).1
     = Returned (Some (Timer "t" "incrementing" true false (Some 1000)
                             (Some (Num 10)) (Num 5000))).
Proof.
  split; [exact w_paused_keyed|]. split; [vm_compute; reflexivity|].
  split; [reflexivity|].
  apply (resumeTimer_record clock0 w_paused "t" t_paused);
    [exact w_paused_keyed|vm_compute; reflexivity|reflexivity].
Defined.

Lemma toggleTimer_dispatch_witness :
  state w_paused !! "t" = Some t_paused
  /\ _toggleTimer clock0 "t" w_paused = _resumeTimer clock0 "t" w_paused.
Proof.
  split; [vm_compute; reflexivity|].
  apply (toggleTimer_dispatch clock0 w_paused "t" t_paused).
  vm_compute. reflexivity.
Defined.

Lemma not_inherited (k : string) :
  bool_decide (k ∉ Object_prototype_keys) = true -> k ∉ Object_prototype_keys.
Proof. apply bool_decide_eq_true. Qed.

Lemma w_running_plain : plain_types (state w_running).
Proof.
  apply map_Forall_insert_2; [right; by apply not_inherited|].
  apply map_Forall_insert_2; [right; by apply not_inherited|apply map_Forall_empty].
Defined.

Lemma w_paused_plain : plain_types (state w_paused).
Proof.
  apply map_Forall_insert_2; [right; by apply not_inherited|apply map_Forall_empty].
Defined.

(** C8. A running timer whose type has no rule in the table should make
    the tick log a warning and write nothing.  The guard of the tick reads
    the table by key, and the key [constructor] finds the function every
    object inherits: for a running timer of that type, which has no rule of
    its own, the tick logs no warning and writes the record back to the
    store. *)
Theorem tick_on_inherited_type :
  state w_inherited !! "c" = Some t_ctor
  /\ running t_ctor = true
  /\ timerFunctions clock0 (type t_ctor) = None
  /\ (_handleTimers clock0 w_inherited).1 = Returned tt
  /\ logged (run clock0 parse0 Tick w_inherited) = []
  /\ handleTimers_body clock0 t_ctor w_inherited
     = dispatch (setTimerData "c" t_ctor) w_inherited.
Proof.
  split; [vm_compute; reflexivity|]. do 2 (split; [reflexivity|]).
  split; [vm_compute; reflexivity|]. split; [vm_compute; reflexivity|].
  reflexivity.
Qed.

Lemma tick_skips_unregistered_type_witness :
  keyed_by_name (state w_running)
  /\ plain_types (state w_running)
  /\ state w_running !! "u" = Some t_laps
  /\ running t_laps = true
  /\ timerFunctions_at clock0 (type t_laps) = None
  /\ state (run clock0 parse0 Tick w_running) !! "u" = Some t_laps
  /\ (warn, unrecognized_type "u" "laps") ∈ logged (run clock0 parse0 Tick w_running)
  /\ exists w1 t',
       (incrementing clock0 t_inc w1).1 = Returned t'
       /\ state (run clock0 parse0 Tick w_running) !! "t" = Some t'.
Proof.
  split; [exact w_running_keyed|]. split; [exact w_running_plain|].
  split; [vm_compute; reflexivity|].
  split; [reflexivity|]. split; [reflexivity|].
  destruct (tick_skips_unregistered_type clock0 parse0 w_running "u" t_laps)
    as (_ & Hst & Hlog & Hothers);
    [exact w_running_keyed|exact w_running_plain|vm_compute; reflexivity
    |reflexivity|reflexivity|].
  split; [exact Hst|]. split; [exact Hlog|].
  destruct (Hothers "t" t_inc (incrementing clock0)) as (w1 & t' & _ & Hf & Hn);
    [vm_compute; reflexivity|reflexivity|reflexivity|].
  exists w1, t'. split; [exact Hf|exact Hn].
Defined.


Lemma negative_number_is_the_duration :
  (resolve_duration parse0 (js_number (Num (-5))) w_paused).1 = Returned (Num (-5)).
Proof. reflexivity. Qed.




(** ** Runs for the further properties *)

Lemma clock0_monotone i j : (i <= j)%nat -> clock0 i <= clock0 j.
Proof. unfold clock0. lia. Qed.

Lemma missing_timer_not_found_witness :
  target (PauseTimer "x") = Some "x"
  /\ plain_name "x"
  /\ state w_paused !! "x" = None
  /\ run clock0 parse0 (PauseTimer "x") w_paused = w_paused.
Proof.
  split; [reflexivity|]. split; [by apply not_inherited|].
  split; [vm_compute; reflexivity|].
  apply (missing_timer_not_found clock0 parse0 (PauseTimer "x") "x" w_paused);
    [reflexivity|by apply not_inherited|vm_compute; reflexivity].
Defined.



Lemma createTimer_returns_iff_witness :
  plain_name "d"
  /\ plain_type "decrementing"
  /\ run_error clock0 parse0 (CreateTimer "d" "decrementing" (js_string "1m")) fresh = None
  /\ run_error clock0 parse0 (CreateTimer "d" "decrementing" (js_string "1m")) w_paused
     <> None.
Proof.
  split; [by apply not_inherited|]. split; [right; by apply not_inherited|]. split.
  - apply (createTimer_returns_iff clock0 parse0 "d" "decrementing" (js_string "1m") fresh);
      [by apply not_inherited|right; by apply not_inherited|].
    split; [exists ∅; split; reflexivity|]. split; [by eexists|]. right. by left.
  - intros Hnone.
    apply (createTimer_returns_iff clock0 parse0 "d" "decrementing" (js_string "1m")
             w_paused) in Hnone;
      [|by apply not_inherited|right; by apply not_inherited].
    destruct Hnone as ((registered & Htimers & _) & _). discriminate Htimers.
Defined.


Lemma repeated_pause_or_resume_witness :
  keyed_by_name (state w_paused)
  /\ state w_paused !! "t" = Some t_paused
  /\ (_resumeTimer clock0 "t" (run clock0 parse0 (ResumeTimer "t") w_paused)).1
     = Returned None.
Proof.
  split; [exact w_paused_keyed|]. split; [vm_compute; reflexivity|].
  apply (repeated_pause_or_resume clock0 parse0 w_paused "t" t_paused);
    [exact w_paused_keyed|vm_compute; reflexivity].
Defined.

Lemma toggle_twice_witness :
  keyed_by_name (state w_paused)
  /\ state w_paused !! "t" = Some t_paused
  /\ state (run clock0 parse0 (ToggleTimer "t")
              (run clock0 parse0 (ToggleTimer "t") w_paused))
     = <["t" := Timer "t" "incrementing" false false (Some 1000) (Some (Num 10))
                      (Num 5000)]> (state w_paused).
Proof.
  split; [exact w_paused_keyed|]. split; [vm_compute; reflexivity|].
  apply (toggle_twice clock0 parse0 w_paused "t" t_paused);
    [exact w_paused_keyed|vm_compute; reflexivity].
Defined.

Lemma reset_twice_witness :
  keyed_by_name (state w_paused)
  /\ state (run clock0 parse0 (ResetTimer "t" None)
              (run clock0 parse0 (ResetTimer "t" None) w_paused))
     = state (run clock0 parse0 (ResetTimer "t" None) w_paused).
Proof.
  split; [exact w_paused_keyed|].
  apply (reset_twice clock0 parse0 w_paused "t" None w_paused_keyed).
Defined.

Lemma updates_keep_names_witness :
  keyed_by_name (state w_running)
  /\ updates_only Tick = true
  /\ dom (state (run clock0 parse0 Tick w_running)) = dom (state w_running).
Proof.
  split; [exact w_running_keyed|]. split; [reflexivity|].
  apply (updates_keep_names clock0 parse0 Tick w_running w_running_keyed
           w_running_plain I eq_refl).
Defined.

Lemma registry_invariants_witness :
  keyed_by_name (state w_paused)
  /\ registered_types (state w_paused)
  /\ Forall plain_op [ResumeTimer "t"; Tick; ResetTimer "t" None; DeleteTimer "x"]
  /\ forall k t,
       state (run_all clock0 parse0
                [ResumeTimer "t"; Tick; ResetTimer "t" None; DeleteTimer "x"]
                w_paused) !! k = Some t ->
       name t = k /\ (type t = "incrementing" \/ type t = "decrementing").
Proof.
  assert (Hplain : Forall plain_op
                     [ResumeTimer "t"; Tick; ResetTimer "t" None; DeleteTimer "x"]).
  { repeat constructor; by apply not_inherited. }
  split; [exact w_paused_keyed|]. split; [exact w_paused_registered|].
  split; [exact Hplain|].
  apply (registry_invariants clock0 parse0 _ w_paused w_paused_keyed
           w_paused_registered Hplain).
Defined.

Lemma tick_is_quiet_witness :
  plain_types (state w_running)
  /\ run_error clock0 parse0 Tick w_running = None
  /\ Forall (fun e => is_timerElapsed e = true)
            (new_events w_running (run clock0 parse0 Tick w_running)).
Proof.
  split; [exact w_running_plain|].
  destruct (tick_is_quiet clock0 parse0 w_running w_running_plain) as (Hret & Hev & _).
  split; [exact Hret|exact Hev].
Defined.

Lemma notifications_match_store_witness :
  keyed_by_name (state w_running)
  /\ Forall (event_matches_store (state (run clock0 parse0 Tick w_running)))
            (new_events w_running (run clock0 parse0 Tick w_running)).
Proof.
  split; [exact w_running_keyed|].
  apply (notifications_match_store clock0 parse0 Tick w_running w_running_keyed).
Defined.

Lemma clock1_small i : small_integer (clock1 i).
Proof.
  unfold small_integer, clock1.
  assert (2 ^ 51 = 2251799813685248) as -> by reflexivity. lia.
Qed.

(** Three ticks on the timer that starts at 4950 with timestamp 900: the
    readings are 1000, 1100 and 1200, and the value ends at 5250. *)
Lemma ticks_account_for_time_witness :
  keyed_by_name (state w_running)
  /\ plain_types (state w_running)
  /\ (forall i, small_integer (clock1 i))
  /\ small_integer 900
  /\ small_integer 4950
  /\ state w_running !! "t" = Some t_inc
  /\ running t_inc = true
  /\ is_Some (timerFunctions clock1 (type t_inc))
  /\ timestamp t_inc = Some 900
  /\ value t_inc = Some (Num 4950)
  /\ exists t', state (Nat.iter 3 (run clock1 parse0 Tick) w_running) !! "t" = Some t'
                /\ timestamp t' = Some 1200
                /\ value t' = Some (Num 5250).
Proof.
  split; [exact w_running_keyed|]. split; [exact w_running_plain|].
  split; [exact clock1_small|]. split; [in_range|]. split; [in_range|].
  split; [vm_compute; reflexivity|].
  split; [reflexivity|]. split; [by eexists|]. split; [reflexivity|].
  split; [reflexivity|].
  destruct (ticks_account_for_time clock1 parse0 w_running "t" t_inc 900 4950 3)
    as (t' & ts' & Hn & Hts & Hv & _);
    [exact w_running_keyed|exact w_running_plain|exact clock1_small|in_range|in_range
    |vm_compute; reflexivity|reflexivity|by eexists|reflexivity|reflexivity|].
  exists t'. split; [exact Hn|].
  assert (Hts' : timestamp t' = Some 1200).
  { revert Hn. vm_compute. intros [= <-]. reflexivity. }
  split; [exact Hts'|]. rewrite Hv.
  rewrite Hts in Hts'. injection Hts' as ->. reflexivity.
Defined.


Lemma paused_time_not_counted_witness :
  keyed_by_name (state w_running)
  /\ plain_types (state w_running)
  /\ (forall i, small_integer (clock1 i))
  /\ small_integer 4950
  /\ state w_running !! "t" = Some t_inc
  /\ is_Some (timerFunctions clock1 (type t_inc))
  /\ value t_inc = Some (Num 4950)
  /\ exists t4,
       state (run clock1 parse0 Tick
                (run clock1 parse0 (ResumeTimer "t")
                   (Nat.iter 2 (run clock1 parse0 Tick)
                      (run clock1 parse0 (PauseTimer "t") w_running)))) !! "t" = Some t4
       /\ value t4 = Some (Num 5050).
Proof.
  split; [exact w_running_keyed|]. split; [exact w_running_plain|].
  split; [exact clock1_small|]. split; [in_range|].
  split; [vm_compute; reflexivity|].
  split; [by eexists|]. split; [reflexivity|].
  destruct (paused_time_not_counted clock1 parse0 w_running "t" t_inc 4950 2)
    as (t4 & i & _ & Hn & _ & _);
    [exact w_running_keyed|exact w_running_plain|exact clock1_small|in_range
    |vm_compute; reflexivity|by eexists|reflexivity|].
  exists t4. split; [exact Hn|].
  revert Hn. vm_compute. intros [= <-]. reflexivity.
Defined.

Lemma elapses_once_witness :
  (forall i j, (i <= j)%nat -> clock0 i <= clock0 j)
  /\ keyed_by_name (state w_running)
  /\ state w_running !! "t" = Some t_inc
  /\ 900 <= clock0 (clock w_running)
  /\ exists t',
       state (Nat.iter 3 (run clock0 parse0 Tick) w_running) !! "t" = Some t'
       /\ timerElapsed_count "t"
            (new_events w_running (Nat.iter 3 (run clock0 parse0 Tick) w_running))
          = if elapsed t' then 1%nat else 0%nat.
Proof.
  split; [exact clock0_monotone|]. split; [exact w_running_keyed|].
  split; [vm_compute; reflexivity|]. split; [by vm_compute|].
  apply (elapses_once clock0 parse0 w_running "t" t_inc 900 4950 3);
    [exact clock0_monotone|exact w_running_keyed|vm_compute; reflexivity|reflexivity
    |by eexists|reflexivity|by vm_compute|reflexivity|reflexivity].
Defined.
